(** * Auto-frame: the smoothing, tracking, framing and pipeline core

    A shallow embedding of [smart_camera/core/smoothing.py],
    [tracking_state.py], [frame_processor.py] and the worker loop of
    [controller.py], with the properties the specification states about them.

    Numbers.  Python [float]s are modelled as exact rationals ([Q]); Python
    [int]s as [Z].  Every statement below is therefore about the arithmetic
    the code writes down, not about IEEE rounding.  Where rounding decides a
    statement, the scalar filter is embedded a second time over binary64
    ([Float64.ExponentialSmoother]).  Mutable objects become records
    threaded through the calls: a method returns its result together with
    the object's new state. *)

From Stdlib Require Import Floats.PrimFloat.
From Stdlib Require Import String QArith Qabs Qround ZArith List Bool Lia Lqa.
Import ListNotations.
Local Open Scope string_scope.
Local Open Scope Q_scope.

(** ** Python built-ins used by the sources *)

(** [a < b] on floats. *)
Definition Qltb (a b : Q) : bool := negb (Qle_bool b a).

(** [min(a, b)]: the first argument unless the second is strictly smaller. *)
Definition py_min (a b : Q) : Q := if Qltb b a then b else a.

(** [max(a, b)]: the first argument unless the second is strictly larger. *)
Definition py_max (a b : Q) : Q := if Qltb a b then b else a.

(** [int(q)] on a float: truncation towards zero. *)
Definition py_int (q : Q) : Z := Z.quot (Qnum q) (Zpos (Qden q)).

(** What a call can do: return a value, or raise an exception (kept as its
    message, which is what the loop's handler stores). *)
Inductive Outcome (A : Type) : Type :=
| Returned (a : A)
| Raised (exn : string).
Arguments Returned {A} a.
Arguments Raised {A} exn.

(** ** smoothing.py *)

Module ExponentialSmoother.

Record t : Type := mk
  { alpha : Q;
    smoothed_value : option Q }.

(** [__init__(alpha)] *)
Definition init (a : Q) : t :=
  {| alpha := py_max 0 (py_min 1 a);
     smoothed_value := None |}.

(** [smooth(new_value)]: the returned value and the updated smoother. *)
Definition smooth (s : t) (new_value : Q) : Q * t :=
  match smoothed_value s with
  | None =>
      (new_value, {| alpha := alpha s; smoothed_value := Some new_value |})
  | Some prev =>
      let v := alpha s * new_value + (1 - alpha s) * prev in
      (v, {| alpha := alpha s; smoothed_value := Some v |})
  end.

(** [reset()] *)
Definition reset (s : t) : t :=
  {| alpha := alpha s; smoothed_value := None |}.

(** [set_alpha(alpha)] *)
Definition set_alpha (s : t) (a : Q) : t :=
  {| alpha := py_max 0 (py_min 1 a);
     smoothed_value := smoothed_value s |}.

End ExponentialSmoother.

Module TransformSmoother.

Module ES := ExponentialSmoother.

Record t : Type := mk
  { x_smoother : ES.t;
    y_smoother : ES.t;
    zoom_smoother : ES.t;
    max_shift_per_frame : Z }.

(** [__init__(alpha, max_shift_per_frame)] *)
Definition init (a : Q) (max_shift : Z) : t :=
  {| x_smoother := ES.init a;
     y_smoother := ES.init a;
     zoom_smoother := ES.init a;
     max_shift_per_frame := max_shift |}.

(** [smooth_transform(target_x, target_y, target_zoom)].

    The three filters run first, each storing its new value.  The velocity
    limiter then reads [prev_x] from [x_smoother.smoothed_value], that is
    from the value [smooth] has just stored. *)
Definition smooth_transform (s : t) (target_x target_y target_zoom : Q)
  : (Q * Q * Q) * t :=
  let '(smoothed_x, xs) := ES.smooth (x_smoother s) target_x in
  let '(smoothed_y, ys) := ES.smooth (y_smoother s) target_y in
  let '(smoothed_zoom, zs) := ES.smooth (zoom_smoother s) target_zoom in
  let limit := inject_Z (max_shift_per_frame s) in
  let '(smoothed_x, xs) :=
    match ES.smoothed_value xs with
    | Some prev_x =>
        let delta_x := smoothed_x - prev_x in
        if Qltb limit (Qabs delta_x) then
          let smoothed_x' :=
            prev_x + (if Qltb 0 delta_x then limit else - limit) in
          (smoothed_x',
           {| ES.alpha := ES.alpha xs; ES.smoothed_value := Some smoothed_x' |})
        else (smoothed_x, xs)
    | None => (smoothed_x, xs)
    end in
  let '(smoothed_y, ys) :=
    match ES.smoothed_value ys with
    | Some prev_y =>
        let delta_y := smoothed_y - prev_y in
        if Qltb limit (Qabs delta_y) then
          let smoothed_y' :=
            prev_y + (if Qltb 0 delta_y then limit else - limit) in
          (smoothed_y',
           {| ES.alpha := ES.alpha ys; ES.smoothed_value := Some smoothed_y' |})
        else (smoothed_y, ys)
    | None => (smoothed_y, ys)
    end in
  ((smoothed_x, smoothed_y, smoothed_zoom),
   {| x_smoother := xs;
      y_smoother := ys;
      zoom_smoother := zs;
      max_shift_per_frame := max_shift_per_frame s |}).

(** [reset()] *)
Definition reset (s : t) : t :=
  {| x_smoother := ES.reset (x_smoother s);
     y_smoother := ES.reset (y_smoother s);
     zoom_smoother := ES.reset (zoom_smoother s);
     max_shift_per_frame := max_shift_per_frame s |}.

(** [set_alpha(alpha)] *)
Definition set_alpha (s : t) (a : Q) : t :=
  {| x_smoother := ES.set_alpha (x_smoother s) a;
     y_smoother := ES.set_alpha (y_smoother s) a;
     zoom_smoother := ES.set_alpha (zoom_smoother s) a;
     max_shift_per_frame := max_shift_per_frame s |}.

(** The attribute write [smoother.max_shift_per_frame = m]. *)
Definition set_max_shift_per_frame (s : t) (m : Z) : t :=
  {| x_smoother := x_smoother s;
     y_smoother := y_smoother s;
     zoom_smoother := zoom_smoother s;
     max_shift_per_frame := m |}.

End TransformSmoother.

(** ** smoothing.py, the scalar filter in binary64

    The same class with Python's [float] as IEEE binary64: every product,
    difference and sum is rounded to nearest, as the interpreter does. *)

Module Float64.

(** [min(a, b)] and [max(a, b)] on floats. *)
Definition py_min (a b : float) : float := if PrimFloat.ltb b a then b else a.
Definition py_max (a b : float) : float := if PrimFloat.ltb a b then b else a.

Module ExponentialSmoother.

Record t : Type := mk
  { alpha : float;
    smoothed_value : option float }.

(** [__init__(alpha)] *)
Definition init (a : float) : t :=
  {| alpha := py_max 0%float (py_min 1%float a);
     smoothed_value := None |}.

(** [smooth(new_value)] *)
Definition smooth (s : t) (new_value : float) : float * t :=
  match smoothed_value s with
  | None =>
      (new_value, {| alpha := alpha s; smoothed_value := Some new_value |})
  | Some prev =>
      let v :=
        PrimFloat.add (PrimFloat.mul (alpha s) new_value)
          (PrimFloat.mul (PrimFloat.sub 1%float (alpha s)) prev) in
      (v, {| alpha := alpha s; smoothed_value := Some v |})
  end.

(** [reset()] *)
Definition reset (s : t) : t :=
  {| alpha := alpha s; smoothed_value := None |}.

(** [set_alpha(alpha)] *)
Definition set_alpha (s : t) (a : float) : t :=
  {| alpha := py_max 0%float (py_min 1%float a);
     smoothed_value := smoothed_value s |}.

End ExponentialSmoother.

End Float64.

(** ** tracking_state.py *)

Definition BBox : Type := (Z * Z * Z * Z)%type.

(** [face_detector.FaceDetection] *)
Record FaceDetection : Type := mkFaceDetection
  { bbox : BBox;
    confidence : Q;
    center : (Z * Z)%type }.

Inductive TrackingStatus : Type :=
| TRACKING
| LOST_RECENT
| LOST_LONG.

Module TrackingState.

Record t : Type := mk
  { memory_duration : Q;
    last_bbox : option BBox;
    last_detection_time : option Q;
    status : TrackingStatus }.

(** [__init__(memory_duration)] *)
Definition init (md : Q) : t :=
  {| memory_duration := md;
     last_bbox := None;
     last_detection_time := None;
     status := LOST_LONG |}.

(** [update(detection, timestamp)] *)
Definition update (s : t) (detection : option FaceDetection) (timestamp : Q)
  : TrackingStatus * t :=
  let s' :=
    match detection with
    | Some d =>
        {| memory_duration := memory_duration s;
           last_bbox := Some (bbox d);
           last_detection_time := Some timestamp;
           status := TRACKING |}
    | None =>
        match last_detection_time s with
        | None =>
            {| memory_duration := memory_duration s;
               last_bbox := last_bbox s;
               last_detection_time := last_detection_time s;
               status := LOST_LONG |}
        | Some last =>
            let time_since_detection := timestamp - last in
            {| memory_duration := memory_duration s;
               last_bbox := last_bbox s;
               last_detection_time := last_detection_time s;
               status := if Qltb time_since_detection (memory_duration s)
                         then LOST_RECENT else LOST_LONG |}
        end
    end in
  (status s', s').

(** [get_target_bbox()] *)
Definition get_target_bbox (s : t) : option BBox :=
  match status s with
  | TRACKING | LOST_RECENT => last_bbox s
  | LOST_LONG => None
  end.

(** [reset()] *)
Definition reset (s : t) : t :=
  {| memory_duration := memory_duration s;
     last_bbox := None;
     last_detection_time := None;
     status := LOST_LONG |}.

End TrackingState.

(** ** frame_processor.py *)

(** A frame is a [numpy] image: rows of BGR pixels. *)
Definition Pixel : Type := (Byte.byte * Byte.byte * Byte.byte)%type.
Definition Frame : Type := list (list Pixel).

(** [frame.shape[:2]] *)
Definition shape (f : Frame) : Z * Z :=
  (Z.of_nat (length f),
   match f with
   | [] => 0%Z
   | row :: _ => Z.of_nat (length row)
   end).

(** [frame.size]: rows x columns x channels. *)
Definition size (f : Frame) : Z :=
  let '(height, width) := shape f in (height * width * 3)%Z.

(** A slice bound as Python resolves it against a length [n]. *)
Definition slice_index (n i : Z) : nat :=
  Z.to_nat (if (i <? 0)%Z then Z.max (i + n) 0 else Z.min i n).

(** [l[lo:hi]] *)
Definition py_slice {A : Type} (l : list A) (lo hi : Z) : list A :=
  let n := Z.of_nat (length l) in
  let a := slice_index n lo in
  let b := slice_index n hi in
  firstn (b - a) (skipn a l).

(** [frame[y1:y2, x1:x2]] *)
Definition crop (f : Frame) (y1 y2 x1 x2 : Z) : Frame :=
  map (fun row => py_slice row x1 x2) (py_slice f y1 y2).

Module ProcessorConfig.

Record t : Type := mk
  { target_face_ratio : Q;
    min_zoom : Q;
    max_zoom : Q;
    smoothing_factor : Q;
    max_shift_per_frame : Z }.

(** The dataclass constructor: it assigns its arguments to the fields and
    does nothing else (the class has no [__post_init__]). *)
Definition init (tfr minz maxz sf : Q) (msf : Z) : Outcome t :=
  Returned {| target_face_ratio := tfr;
              min_zoom := minz;
              max_zoom := maxz;
              smoothing_factor := sf;
              max_shift_per_frame := msf |}.

(** The field defaults of the dataclass. *)
Definition default_target_face_ratio : Q := 4 # 10.
Definition default_min_zoom : Q := 1.
Definition default_max_zoom : Q := 3.
Definition default_smoothing_factor : Q := 15 # 100.
Definition default_max_shift_per_frame : Z := 50.

End ProcessorConfig.

Module FrameProcessor.

Module PC := ProcessorConfig.
Module TS := TransformSmoother.

Record t : Type := mk
  { config : PC.t;
    smoother : TS.t;
    frame_center : option (Z * Z) }.

(** [__init__(config)] *)
Definition init (cfg : PC.t) : t :=
  {| config := cfg;
     smoother := TS.init (PC.smoothing_factor cfg) (PC.max_shift_per_frame cfg);
     frame_center := None |}.

(** [_calculate_zoom(face_height, frame_height)].  Both divisions raise
    [ZeroDivisionError] on a zero divisor. *)
Definition _calculate_zoom (fp : t) (face_height frame_height : Z) : Outcome Q :=
  if (face_height <=? 0)%Z then Returned (PC.min_zoom (config fp))
  else if (frame_height =? 0)%Z then Raised "division by zero"
  else
    let current_ratio := inject_Z face_height / inject_Z frame_height in
    if Qeq_bool current_ratio 0 then Raised "float division by zero"
    else
      let target_zoom := PC.target_face_ratio (config fp) / current_ratio in
      Returned (py_max (PC.min_zoom (config fp))
                       (py_min (PC.max_zoom (config fp)) target_zoom)).

Section WithResize.

(** [cv2.resize(roi, (width, height), interpolation=cv2.INTER_LINEAR)],
    an OpenCV routine outside the repository. *)
Variable cv2_resize : Frame -> Z -> Z -> Outcome Frame.

(** [_apply_transform(frame, center_x, center_y, zoom)] *)
Definition _apply_transform (frame : Frame) (center_x center_y : Z) (zoom : Q)
  : Outcome Frame :=
  let '(height, width) := shape frame in
  if Qeq_bool zoom 0 then Raised "float division by zero"
  else
    let new_width := py_int (inject_Z width / zoom) in
    let new_height := py_int (inject_Z height / zoom) in
    let x1 := (center_x - new_width / 2)%Z in
    let y1 := (center_y - new_height / 2)%Z in
    let x1 := Z.max 0 (Z.min x1 (width - new_width)) in
    let y1 := Z.max 0 (Z.min y1 (height - new_height)) in
    let x2 := (x1 + new_width)%Z in
    let y2 := (y1 + new_height)%Z in
    let roi := crop frame y1 y2 x1 x2 in
    cv2_resize roi width height.

(** [process(frame, target_bbox)]: what the call does, and the processor
    as the call leaves it (also when it raises part-way). *)
Definition process (fp : t) (frame : option Frame) (target_bbox : option BBox)
  : Outcome (option Frame) * t :=
  match frame with
  | None => (Returned frame, fp)
  | Some f =>
      if (size f =? 0)%Z then (Returned frame, fp)
      else
        let '(height, width) := shape f in
        let fp :=
          match frame_center fp with
          | None =>
              {| config := config fp;
                 smoother := smoother fp;
                 frame_center := Some ((width / 2)%Z, (height / 2)%Z) |}
          | Some _ => fp
          end in
        match target_bbox with
        | None => (Returned frame, fp)
        | Some (x, y, w, h) =>
            let face_center_x := (x + w / 2)%Z in
            let face_center_y := (y + h / 2)%Z in
            match _calculate_zoom fp h height with
            | Raised e => (Raised e, fp)
            | Returned target_zoom =>
                let '((smoothed_x, smoothed_y, smoothed_zoom), sm) :=
                  TS.smooth_transform (smoother fp)
                    (inject_Z face_center_x) (inject_Z face_center_y)
                    target_zoom in
                let fp :=
                  {| config := config fp;
                     smoother := sm;
                     frame_center := frame_center fp |} in
                match _apply_transform f (py_int smoothed_x)
                        (py_int smoothed_y) smoothed_zoom with
                | Raised e => (Raised e, fp)
                | Returned transformed_frame =>
                    (Returned (Some transformed_frame), fp)
                end
            end
        end
  end.

End WithResize.

(** [update_config(config)] *)
Definition update_config (fp : t) (cfg : PC.t) : t :=
  let sm := TS.set_alpha (smoother fp) (PC.smoothing_factor cfg) in
  let sm := TS.set_max_shift_per_frame sm (PC.max_shift_per_frame cfg) in
  {| config := cfg;
     smoother := sm;
     frame_center := frame_center fp |}.

End FrameProcessor.

(** ** config/settings.py *)

Module AppConfig.

Record t : Type := mk
  { camera_index : Z;
    resolution : (Z * Z)%type;
    fps : Z;
    tracking_speed : Q;
    zoom_level : string;
    face_size_ratio : Q;
    min_detection_confidence : Q;
    max_cpu_percent : Q;
    enable_gpu : bool }.

(** The dataclass constructor: plain field assignment. *)
Definition init (ci : Z) (res : Z * Z) (f : Z) (ts : Q) (zl : string)
    (fsr mdc mcp : Q) (gpu : bool) : Outcome t :=
  Returned {| camera_index := ci;
              resolution := res;
              fps := f;
              tracking_speed := ts;
              zoom_level := zl;
              face_size_ratio := fsr;
              min_detection_confidence := mdc;
              max_cpu_percent := mcp;
              enable_gpu := gpu |}.

(** [AppConfig()] with every field at its default. *)
Definition default : t :=
  {| camera_index := 0;
     resolution := (1280, 720)%Z;
     fps := 30;
     tracking_speed := 15 # 100;
     zoom_level := "medium";
     face_size_ratio := 4 # 10;
     min_detection_confidence := 5 # 10;
     max_cpu_percent := 25;
     enable_gpu := false |}.

End AppConfig.

(** ** controller.py *)

Module CameraController.

Module PC := ProcessorConfig.

(** The controller's own fields.  The camera, the detector and the virtual
    camera are devices; what they answer on a tick is an input ([TickEnv]). *)
Record t : Type := mk
  { config : AppConfig.t;
    tracking_state : option TrackingState.t;
    frame_processor : option FrameProcessor.t;
    running : bool;
    frame_queue : list Frame;
    fps_counter : Z;
    fps_start_time : Q;
    current_fps : Q;
    current_zoom : Q;
    low_fps_counter : Z;
    low_fps_warning_shown : bool;
    error_message : option string;
    frame_read_failures : Z }.

(** [__init__(config)] *)
Definition init (cfg : AppConfig.t) : t :=
  {| config := cfg;
     tracking_state := None;
     frame_processor := None;
     running := false;
     frame_queue := [];
     fps_counter := 0;
     fps_start_time := 0;
     current_fps := 0;
     current_zoom := 1;
     low_fps_counter := 0;
     low_fps_warning_shown := false;
     error_message := None;
     frame_read_failures := 0 |}.

(** Attribute writes. *)
Definition set_tracking_state (c : t) (v : option TrackingState.t) : t :=
  mk (config c) v (frame_processor c) (running c) (frame_queue c)
     (fps_counter c) (fps_start_time c) (current_fps c) (current_zoom c)
     (low_fps_counter c) (low_fps_warning_shown c) (error_message c)
     (frame_read_failures c).

Definition set_frame_processor (c : t) (v : option FrameProcessor.t) : t :=
  mk (config c) (tracking_state c) v (running c) (frame_queue c)
     (fps_counter c) (fps_start_time c) (current_fps c) (current_zoom c)
     (low_fps_counter c) (low_fps_warning_shown c) (error_message c)
     (frame_read_failures c).

Definition set_running (c : t) (v : bool) : t :=
  mk (config c) (tracking_state c) (frame_processor c) v (frame_queue c)
     (fps_counter c) (fps_start_time c) (current_fps c) (current_zoom c)
     (low_fps_counter c) (low_fps_warning_shown c) (error_message c)
     (frame_read_failures c).

Definition set_frame_queue (c : t) (v : list Frame) : t :=
  mk (config c) (tracking_state c) (frame_processor c) (running c) v
     (fps_counter c) (fps_start_time c) (current_fps c) (current_zoom c)
     (low_fps_counter c) (low_fps_warning_shown c) (error_message c)
     (frame_read_failures c).

Definition set_fps (c : t) (counter : Z) (start cur : Q) (low : Z)
    (shown : bool) : t :=
  mk (config c) (tracking_state c) (frame_processor c) (running c)
     (frame_queue c) counter start cur (current_zoom c) low shown
     (error_message c) (frame_read_failures c).

Definition set_error_message (c : t) (v : option string) : t :=
  mk (config c) (tracking_state c) (frame_processor c) (running c)
     (frame_queue c) (fps_counter c) (fps_start_time c) (current_fps c)
     (current_zoom c) (low_fps_counter c) (low_fps_warning_shown c) v
     (frame_read_failures c).

Definition set_frame_read_failures (c : t) (v : Z) : t :=
  mk (config c) (tracking_state c) (frame_processor c) (running c)
     (frame_queue c) (fps_counter c) (fps_start_time c) (current_fps c)
     (current_zoom c) (low_fps_counter c) (low_fps_warning_shown c)
     (error_message c) v.

(** What the devices and the clock answer when [start] runs. *)
Record StartEnv : Type := mkStartEnv
  { camera_opened : Outcome bool;
    detector_init : Outcome unit;
    virtual_camera_init : Outcome unit;
    start_time : Q }.

(** [start()], up to the point where the worker thread is launched.  An
    exception of the camera constructor reaches the outer handler, whose
    call of [stop()] returns at once because [running] is false. *)
Definition start (c : t) (env : StartEnv) : bool * t :=
  if running c then (true, c)
  else
    match camera_opened env with
    | Raised e => (false, set_error_message c (Some ("Failed to start: " ++ e)))
    | Returned false =>
        (false,
         set_error_message c
           (Some "No camera detected. Please connect a webcam."))
    | Returned true =>
    match detector_init env with
    | Raised e =>
        (false,
         set_error_message c
           (Some ("Face detection failed to initialize: " ++ e)))
    | Returned _ =>
        let c := set_tracking_state c (Some (TrackingState.init 2)) in
        let processor_config :=
          {| PC.target_face_ratio := AppConfig.face_size_ratio (config c);
             PC.min_zoom := PC.default_min_zoom;
             PC.max_zoom := PC.default_max_zoom;
             PC.smoothing_factor := AppConfig.tracking_speed (config c);
             PC.max_shift_per_frame := PC.default_max_shift_per_frame |} in
        let c :=
          set_frame_processor c (Some (FrameProcessor.init processor_config)) in
        match virtual_camera_init env with
        | Raised e =>
            (false, set_error_message c (Some ("Virtual camera failed: " ++ e)))
        | Returned _ =>
            let c := set_running c true in
            let c :=
              set_fps c (fps_counter c) (start_time env) (current_fps c)
                (low_fps_counter c) (low_fps_warning_shown c) in
            (true, c)
        end
    end
    end.

(** What the devices and the clock answer during one loop iteration. *)
Record TickEnv : Type := mkTickEnv
  { read_frame : Outcome (option Frame);
    detect : Outcome (option FaceDetection);
    current_time : Q;
    send_frame : Outcome unit }.

Section Loop.

Variable cv2_resize : Frame -> Z -> Z -> Outcome Frame.

(** The FPS accounting at the end of a tick that got a frame. *)
Definition update_fps (c : t) (now : Q) : t :=
  let counter := (fps_counter c + 1)%Z in
  let elapsed := now - fps_start_time c in
  if Qle_bool 1 elapsed then
    let cur := inject_Z counter / elapsed in
    if Qltb cur 15 then
      let low := (low_fps_counter c + 1)%Z in
      if (5 <=? low)%Z && negb (low_fps_warning_shown c) then
        set_fps c 0 now cur low true
      else set_fps c 0 now cur low (low_fps_warning_shown c)
    else set_fps c 0 now cur 0 false
  else
    set_fps c counter (fps_start_time c) (current_fps c)
      (low_fps_counter c) (low_fps_warning_shown c).

(** One iteration of the body of [while self.running] in [_process_loop].
    An exception anywhere in the body lands in the handler, which stores
    its text in [error_message]; logging and sleeping leave the
    controller as it is. *)
Definition tick (c : t) (env : TickEnv) : t :=
  match read_frame env with
  | Raised e => set_error_message c (Some e)
  | Returned None =>
      let c := set_frame_read_failures c (frame_read_failures c + 1) in
      if (3 <? frame_read_failures c)%Z then
        let c := set_error_message c (Some "Camera connection lost") in
        set_running c false
      else c
  | Returned (Some frame) =>
      let c := set_frame_read_failures c 0 in
      match detect env with
      | Raised e => set_error_message c (Some e)
      | Returned detection =>
          match tracking_state c with
          | None =>
              set_error_message c
                (Some "'NoneType' object has no attribute 'update'")
          | Some ts =>
              let '(_, ts) :=
                TrackingState.update ts detection (current_time env) in
              let c := set_tracking_state c (Some ts) in
              let target_bbox := TrackingState.get_target_bbox ts in
              match frame_processor c with
              | None =>
                  set_error_message c
                    (Some "'NoneType' object has no attribute 'process'")
              | Some fp =>
                  let '(out, fp) :=
                    FrameProcessor.process cv2_resize fp (Some frame)
                      target_bbox in
                  let c := set_frame_processor c (Some fp) in
                  match out with
                  | Raised e => set_error_message c (Some e)
                  | Returned processed_frame =>
                      match send_frame env with
                      | Raised e => set_error_message c (Some e)
                      | Returned _ =>
                          let c :=
                            match processed_frame with
                            | Some pf =>
                                if (length (frame_queue c) <? 2)%nat
                                then set_frame_queue c (frame_queue c ++ [pf])
                                else c
                            | None => c
                            end in
                          let c := update_fps c (current_time env) in
                          if (AppConfig.fps (config c) =? 0)%Z then
                            set_error_message c
                              (Some "float division by zero")
                          else c
                      end
                  end
              end
          end
      end
  end.

(** [_process_loop()] over the answers of the devices, one per iteration:
    the loop test [while self.running] comes first, and the [break] of
    the failure path leaves [running] false as well. *)
Fixpoint _process_loop (c : t) (envs : list TickEnv) : t :=
  match envs with
  | [] => c
  | env :: rest =>
      if running c then _process_loop (tick c env) rest else c
  end.

End Loop.

(** The attribute write [self.config = config]. *)
Definition set_config (c : t) (v : AppConfig.t) : t :=
  mk v (tracking_state c) (frame_processor c) (running c) (frame_queue c)
     (fps_counter c) (fps_start_time c) (current_fps c) (current_zoom c)
     (low_fps_counter c) (low_fps_warning_shown c) (error_message c)
     (frame_read_failures c).

(** [stop()], on the controller's own fields: joining the worker and closing
    the three devices touch none of them. *)
Definition stop (c : t) : t :=
  if negb (running c) then c
  else
    let c := set_running c false in
    let c := set_tracking_state c None in
    set_frame_processor c None.

(** [get_preview_frame(timeout)]: the oldest queued frame, or [None] when the
    queue stays empty until the timeout. *)
Definition get_preview_frame (c : t) : option Frame * t :=
  match frame_queue c with
  | [] => (None, c)
  | f :: rest => (Some f, set_frame_queue c rest)
  end.

(** [update_settings(config)] *)
Definition update_settings (c : t) (cfg : AppConfig.t) : t :=
  let c := set_config c cfg in
  match frame_processor c with
  | Some fp =>
      let processor_config :=
        {| PC.target_face_ratio := AppConfig.face_size_ratio cfg;
           PC.min_zoom := PC.default_min_zoom;
           PC.max_zoom := PC.default_max_zoom;
           PC.smoothing_factor := AppConfig.tracking_speed cfg;
           PC.max_shift_per_frame := PC.default_max_shift_per_frame |} in
      set_frame_processor c
        (Some (FrameProcessor.update_config fp processor_config))
  | None => c
  end.

Module ControllerStatus.

Record t : Type := mk
  { is_running : bool;
    current_fps : Q;
    face_detected : bool;
    tracking_status : TrackingStatus;
    current_zoom : Q;
    error_message : option string }.

End ControllerStatus.

(** [get_status()] *)
Definition get_status (c : t) : ControllerStatus.t :=
  let '(face_detected, tracking_status) :=
    match tracking_state c with
    | Some ts =>
        (match TrackingState.status ts with
         | TRACKING => true
         | _ => false
         end,
         TrackingState.status ts)
    | None => (false, LOST_LONG)
    end in
  {| ControllerStatus.is_running := running c;
     ControllerStatus.current_fps := current_fps c;
     ControllerStatus.face_detected := face_detected;
     ControllerStatus.tracking_status := tracking_status;
     ControllerStatus.current_zoom := current_zoom c;
     ControllerStatus.error_message := error_message c |}.

End CameraController.

(** ** face_detector.py *)

Module RelativeBoundingBox.

(** MediaPipe's [location_data.relative_bounding_box]: fractions of the
    frame. *)
Record t : Type := mk
  { xmin : Q;
    ymin : Q;
    width : Q;
    height : Q }.

End RelativeBoundingBox.

Module FaceDetector.

Module RBB := RelativeBoundingBox.

(** One entry of MediaPipe's [results.detections]: its relative bounding box
    and [score[0]]. *)
Record Detection : Type := mkDetection
  { relative_bounding_box : RBB.t;
    score : Q }.

(** The [for detection in results.detections] loop of [detect], carrying
    [largest_detection] and [largest_area]. *)
Fixpoint scan (detections : list Detection) (width height : Z)
    (largest_detection : option FaceDetection) (largest_area : Z)
  : option FaceDetection :=
  match detections with
  | [] => largest_detection
  | detection :: rest =>
      let bbox := relative_bounding_box detection in
      let x := py_int (RBB.xmin bbox * inject_Z width) in
      let y := py_int (RBB.ymin bbox * inject_Z height) in
      let w := py_int (RBB.width bbox * inject_Z width) in
      let h := py_int (RBB.height bbox * inject_Z height) in
      let x := Z.max 0 x in
      let y := Z.max 0 y in
      let w := Z.min w (width - x) in
      let h := Z.min h (height - y) in
      let area := (w * h)%Z in
      if (largest_area <? area)%Z then
        let center_x := (x + w / 2)%Z in
        let center_y := (y + h / 2)%Z in
        scan rest width height
          (Some {| bbox := (x, y, w, h);
                   confidence := score detection;
                   center := (center_x, center_y) |})
          area
      else scan rest width height largest_detection largest_area
  end.

(** [detect(frame)], given what MediaPipe answers for the frame
    ([results.detections]: nothing, or a list). *)
Definition detect (frame : option Frame) (detections : option (list Detection))
  : option FaceDetection :=
  match frame with
  | None => None
  | Some f =>
      if (size f =? 0)%Z then None
      else
        match detections with
        | None => None
        | Some [] => None
        | Some ds =>
            let '(height, width) := shape f in
            scan ds width height None 0
        end
  end.

End FaceDetector.

(** ** video_recorder.py *)

Module VideoRecorder.

(** A [pathlib.Path] made by [directory / name], kept as its two parts; its
    [str] is kept as the path itself. *)
Definition Path : Type := (string * string)%type.

(** The recorder.  [writer] is the open [cv2.VideoWriter], kept as the frames
    written to it so far. *)
Record t : Type := mk
  { output_dir : string;
    codec : string;
    fps : Z;
    writer : option (list Frame);
    current_file : option Path;
    is_recording : bool;
    frame_count : Z }.

(** [__init__(output_dir, codec, fps)] *)
Definition init (dir cdc : string) (f : Z) : t :=
  {| output_dir := dir;
     codec := cdc;
     fps := f;
     writer := None;
     current_file := None;
     is_recording := false;
     frame_count := 0 |}.

(** What the clock and OpenCV answer when a recording starts: the formatted
    time stamp, and whether the writer opened ([isOpened()]) or its
    construction raised. *)
Record StartEnv : Type := mkStartEnv
  { timestamp : string;
    writer_opened : Outcome bool }.

(** [start_recording(width, height)] *)
Definition start_recording (r : t) (width height : Z) (env : StartEnv)
  : bool * t :=
  if is_recording r then (false, r)
  else
    match writer_opened env with
    | Returned true =>
        let filename := "recording_" ++ timestamp env ++ ".mp4" in
        (true,
         {| output_dir := output_dir r;
            codec := codec r;
            fps := fps r;
            writer := Some [];
            current_file := Some (output_dir r, filename);
            is_recording := true;
            frame_count := 0 |})
    | Returned false | Raised _ =>
        (false,
         {| output_dir := output_dir r;
            codec := codec r;
            fps := fps r;
            writer := None;
            current_file := None;
            is_recording := is_recording r;
            frame_count := frame_count r |})
    end.

(** [write_frame(frame)], given whether [writer.write] raises. *)
Definition write_frame (r : t) (frame : Frame) (written : Outcome unit)
  : bool * t :=
  if negb (is_recording r) then (false, r)
  else
    match writer r with
    | None => (false, r)
    | Some frames =>
        match written with
        | Returned _ =>
            (true,
             {| output_dir := output_dir r;
                codec := codec r;
                fps := fps r;
                writer := Some (frames ++ [frame])%list;
                current_file := current_file r;
                is_recording := is_recording r;
                frame_count := frame_count r + 1 |})
        | Raised _ => (false, r)
        end
    end.

(** [stop_recording()], given whether [writer.release] raises. *)
Definition stop_recording (r : t) (released : Outcome unit)
  : option Path * t :=
  if negb (is_recording r) then (None, r)
  else
    match writer r, released with
    | Some _, Raised _ =>
        (None,
         {| output_dir := output_dir r;
            codec := codec r;
            fps := fps r;
            writer := None;
            current_file := None;
            is_recording := false;
            frame_count := frame_count r |})
    | _, _ =>
        (current_file r,
         {| output_dir := output_dir r;
            codec := codec r;
            fps := fps r;
            writer := None;
            current_file := None;
            is_recording := false;
            frame_count := 0 |})
    end.

(** The dictionary [get_recording_info] returns. *)
Record RecordingInfo : Type := mkRecordingInfo
  { info_is_recording : bool;
    info_frame_count : Z;
    info_current_file : option Path;
    info_duration_seconds : Q }.

(** [get_recording_info()] *)
Definition get_recording_info (r : t) : RecordingInfo :=
  {| info_is_recording := is_recording r;
     info_frame_count := frame_count r;
     info_current_file := current_file r;
     info_duration_seconds :=
       if (0 <? fps r)%Z then inject_Z (frame_count r) / inject_Z (fps r)
       else 0 |}.

(** [close()] *)
Definition close (r : t) (released : Outcome unit) : t :=
  if is_recording r then snd (stop_recording r released) else r.

End VideoRecorder.

(** ** config/settings.py, the zoom presets *)

Module SettingsManager.

(** [ZOOM_PRESETS] *)
Definition ZOOM_PRESETS : list (string * Q) :=
  [("close", 5 # 10); ("medium", 4 # 10); ("wide", 3 # 10)].

(** [dict.get(key, default)] on a dictionary kept as its items. *)
Fixpoint dict_get (d : list (string * Q)) (key : string) (default : Q) : Q :=
  match d with
  | [] => default
  | (k, v) :: rest => if (k =? key)%string then v else dict_get rest key default
  end.

(** [get_face_ratio_for_zoom(zoom_level)] *)
Definition get_face_ratio_for_zoom (zoom_level : string) : Q :=
  dict_get ZOOM_PRESETS zoom_level (4 # 10).

End SettingsManager.

(** ** Vocabulary of the statements *)

Module ES := ExponentialSmoother.
Module TS := TransformSmoother.
Module PC := ProcessorConfig.
Module FP := FrameProcessor.
Module CC := CameraController.

(** Histories of one smoother: the calls made on it since construction. *)
Inductive SmootherCall : Type :=
| CallSmooth (v : Q)
| CallSetAlpha (a : Q)
| CallReset.

Definition call (s : ES.t) (c : SmootherCall) : ES.t :=
  match c with
  | CallSmooth v => snd (ES.smooth s v)
  | CallSetAlpha a => ES.set_alpha s a
  | CallReset => ES.reset s
  end.

Definition calls (s : ES.t) (cs : list SmootherCall) : ES.t :=
  fold_left call cs s.

(** The inputs given to [smooth] since the last [reset] (most recent first),
    continuing from the inputs [acc] already seen. *)
Fixpoint inputs_from (acc : list Q) (cs : list SmootherCall) : list Q :=
  match cs with
  | [] => acc
  | CallSmooth v :: cs => inputs_from (v :: acc) cs
  | CallSetAlpha _ :: cs => inputs_from acc cs
  | CallReset :: cs => inputs_from [] cs
  end.

Definition inputs_since_reset (cs : list SmootherCall) : list Q :=
  inputs_from [] cs.

(** [q] lies between two members of [l], hence between its minimum and its
    maximum. *)
Definition within (l : list Q) (q : Q) : Prop :=
  exists lo hi, In lo l /\ In hi l /\ lo <= q <= hi.

(** The invariant of a smoother against the inputs it has seen. *)
Definition smoother_inv (s : ES.t) (seen : list Q) : Prop :=
  0 <= ES.alpha s <= 1
  /\ match ES.smoothed_value s with
     | None => True
     | Some p => within seen p
     end.

(** A tracker that receives no detection at each of the times [ts]. *)
Definition lose (s : TrackingState.t) (ts : list Q) : TrackingState.t :=
  fold_left (fun s t => snd (TrackingState.update s None t)) ts s.

(** The constraints the specification puts on a processor configuration:
    both ratios strictly between 0 and 1, and [1 <= min_zoom <= max_zoom]. *)
Definition spec_valid (tfr minz maxz sf : Q) : Prop :=
  (0 < tfr /\ tfr < 1) /\ (0 < sf /\ sf < 1) /\ 1 <= minz /\ minz <= maxz.

(** A tick on which the camera gave no frame. *)
Definition failed_read (env : CC.TickEnv) : Prop :=
  CC.read_frame env = Returned None.

(** [n] further calls of [smooth], all with the input [v]. *)
Fixpoint smooth_repeat (s : ES.t) (v : Q) (n : nat) : ES.t :=
  match n with
  | O => s
  | S n => smooth_repeat (snd (ES.smooth s v)) v n
  end.

(** [q] to the power [n]. *)
Fixpoint qpow (q : Q) (n : nat) : Q :=
  match n with
  | O => 1
  | S n => q * qpow q n
  end.

(** Histories of one tracker: the calls made on it since construction. *)
Inductive TrackerCall : Type :=
| TrackUpdate (detection : option FaceDetection) (timestamp : Q)
| TrackReset.

Definition track (s : TrackingState.t) (c : TrackerCall) : TrackingState.t :=
  match c with
  | TrackUpdate d t => snd (TrackingState.update s d t)
  | TrackReset => TrackingState.reset s
  end.

Definition tracks (s : TrackingState.t) (cs : list TrackerCall)
  : TrackingState.t :=
  fold_left track cs s.

(** What a tracker built through its own calls always satisfies. *)
Definition tracker_inv (s : TrackingState.t) : Prop :=
  (TrackingState.last_bbox s = None
   <-> TrackingState.last_detection_time s = None)
  /\ (TrackingState.status s <> LOST_LONG ->
      TrackingState.last_bbox s <> None).

(** Every row of the frame has the width [shape] reports (a [numpy] image
    always has). *)
Definition rectangular (f : Frame) : Prop :=
  Forall (fun row => Z.of_nat (length row) = snd (shape f)) f.

(** A processor whose zoom cannot reach zero: a positive [min_zoom], a zoom
    filter factor within [0,1] and a positive stored zoom, if any. *)
Definition zoom_positive (fp : FP.t) : Prop :=
  0 < PC.min_zoom (FP.config fp)
  /\ 0 <= ES.alpha (TS.zoom_smoother (FP.smoother fp)) <= 1
  /\ match ES.smoothed_value (TS.zoom_smoother (FP.smoother fp)) with
     | Some z => 0 < z
     | None => True
     end.

(** Histories of one controller: the calls made on it and the iterations of
    its worker loop, in the order in which they take effect. *)
Inductive ControllerCall : Type :=
| CallStart (env : CC.StartEnv)
| CallIteration (env : CC.TickEnv)
| CallUpdateSettings (cfg : AppConfig.t)
| CallStop
| CallGetPreviewFrame.

Definition control (cv2_resize : Frame -> Z -> Z -> Outcome Frame)
    (c : CC.t) (call : ControllerCall) : CC.t :=
  match call with
  | CallStart env => snd (CC.start c env)
  | CallIteration env => CC._process_loop cv2_resize c [env]
  | CallUpdateSettings cfg => CC.update_settings c cfg
  | CallStop => CC.stop c
  | CallGetPreviewFrame => snd (CC.get_preview_frame c)
  end.

Definition controls (cv2_resize : Frame -> Z -> Z -> Outcome Frame)
    (c : CC.t) (calls : list ControllerCall) : CC.t :=
  fold_left (control cv2_resize) calls c.

(** What every processor the controller builds satisfies. *)
Definition processor_inv (fp : FP.t) : Prop :=
  PC.min_zoom (FP.config fp) = 1
  /\ PC.max_zoom (FP.config fp) = 3
  /\ PC.max_shift_per_frame (FP.config fp) = 50%Z
  /\ TS.max_shift_per_frame (FP.smoother fp) = 50%Z
  /\ 0 <= ES.alpha (TS.zoom_smoother (FP.smoother fp)) <= 1
  /\ match ES.smoothed_value (TS.zoom_smoother (FP.smoother fp)) with
     | Some z => 0 < z
     | None => True
     end.

(** What a controller satisfies after any history. *)
Definition controller_inv (c : CC.t) : Prop :=
  (length (CC.frame_queue c) <= 2)%nat
  /\ (0 <= CC.frame_read_failures c)%Z
  /\ (CC.low_fps_warning_shown c = true <-> (5 <= CC.low_fps_counter c)%Z)
  /\ (0 <= CC.fps_counter c)%Z
  /\ CC.current_zoom c = 1
  /\ (CC.running c = true ->
      CC.tracking_state c <> None /\ CC.frame_processor c <> None)
  /\ match CC.frame_processor c with
     | Some fp => processor_inv fp
     | None => True
     end
  /\ match CC.tracking_state c with
     | Some ts => TrackingState.memory_duration ts = 2
     | None => True
     end.

(** The pixel box the detector's loop computes for one detection in a frame
    of the given width and height, its area, and the [FaceDetection] built
    from it. *)
Definition pixel_box (width height : Z) (d : FaceDetector.Detection) : BBox :=
  let rb := FaceDetector.relative_bounding_box d in
  let x := Z.max 0 (py_int (RelativeBoundingBox.xmin rb * inject_Z width)) in
  let y := Z.max 0 (py_int (RelativeBoundingBox.ymin rb * inject_Z height)) in
  let w :=
    Z.min (py_int (RelativeBoundingBox.width rb * inject_Z width)) (width - x) in
  let h :=
    Z.min (py_int (RelativeBoundingBox.height rb * inject_Z height))
      (height - y) in
  (x, y, w, h).

Definition box_area (b : BBox) : Z :=
  let '(_, _, w, h) := b in (w * h)%Z.

Definition candidate (width height : Z) (d : FaceDetector.Detection)
  : FaceDetection :=
  let '(x, y, w, h) := pixel_box width height d in
  {| bbox := (x, y, w, h);
     confidence := FaceDetector.score d;
     center := ((x + w / 2)%Z, (y + h / 2)%Z) |}.

(** Histories of one recorder. *)
Inductive RecorderCall : Type :=
| RecStart (width height : Z) (env : VideoRecorder.StartEnv)
| RecWrite (frame : Frame) (written : Outcome unit)
| RecStop (released : Outcome unit)
| RecClose (released : Outcome unit).

Definition record (r : VideoRecorder.t) (c : RecorderCall) : VideoRecorder.t :=
  match c with
  | RecStart w h env => snd (VideoRecorder.start_recording r w h env)
  | RecWrite f o => snd (VideoRecorder.write_frame r f o)
  | RecStop o => snd (VideoRecorder.stop_recording r o)
  | RecClose o => VideoRecorder.close r o
  end.

Definition records (r : VideoRecorder.t) (cs : list RecorderCall)
  : VideoRecorder.t :=
  fold_left record cs r.

(** Writing the frames [fs] one after the other, every write succeeding. *)
Definition write_all (r : VideoRecorder.t) (fs : list Frame) : VideoRecorder.t :=
  fold_left (fun r f => snd (VideoRecorder.write_frame r f (Returned tt))) fs r.

(** What a recorder satisfies after any history. *)
Definition recorder_inv (r : VideoRecorder.t) : Prop :=
  (0 <= VideoRecorder.frame_count r)%Z
  /\ if VideoRecorder.is_recording r
     then (exists frames,
              VideoRecorder.writer r = Some frames
              /\ VideoRecorder.frame_count r = Z.of_nat (length frames))
          /\ VideoRecorder.current_file r <> None
     else VideoRecorder.writer r = None
          /\ VideoRecorder.current_file r = None.

(** * Properties *)

(** ** Comparisons and clamps *)

Lemma Qltb_true_iff (a b : Q) : Qltb a b = true <-> a < b.
Proof.
  unfold Qltb. rewrite negb_true_iff.
  split; intro H.
  - apply Qnot_le_lt. intro Hle. apply Qle_bool_iff in Hle. congruence.
  - destruct (Qle_bool b a) eqn:E; [|reflexivity].
    apply Qle_bool_iff in E. exfalso. apply (Qlt_not_le _ _ H E).
Qed.

Lemma Qltb_false_iff (a b : Q) : Qltb a b = false <-> b <= a.
Proof.
  unfold Qltb. rewrite negb_false_iff. apply Qle_bool_iff.
Qed.

Ltac case_Qltb a b :=
  let E := fresh "E" in
  destruct (Qltb a b) eqn:E;
  [apply Qltb_true_iff in E | apply Qltb_false_iff in E].

Lemma clamp01_bounds (a : Q) :
  0 <= py_max 0 (py_min 1 a) <= 1.
Proof.
  unfold py_max, py_min.
  case_Qltb a 1.
  - case_Qltb 0 a; lra.
  - case_Qltb 0 1; lra.
Qed.

Lemma clamp01_id (a : Q) :
  0 <= a <= 1 -> py_max 0 (py_min 1 a) == a.
Proof.
  intros [H0 H1]. unfold py_max, py_min.
  case_Qltb a 1.
  - case_Qltb 0 a; lra.
  - case_Qltb 0 1; lra.
Qed.

Lemma clamp_between (lo hi v : Q) :
  lo <= hi -> lo <= py_max lo (py_min hi v) <= hi.
Proof.
  intro H. unfold py_max, py_min.
  case_Qltb v hi.
  - case_Qltb lo v; lra.
  - case_Qltb lo hi; lra.
Qed.

Lemma clamp_inside (lo hi v : Q) :
  lo <= v <= hi -> py_max lo (py_min hi v) == v.
Proof.
  intros [H0 H1]. unfold py_max, py_min.
  case_Qltb v hi.
  - case_Qltb lo v; lra.
  - case_Qltb lo hi; lra.
Qed.

(** ** The scalar filter *)

Lemma ES_init_alpha_bounds (a : Q) : 0 <= ES.alpha (ES.init a) <= 1.
Proof. apply clamp01_bounds. Qed.

Lemma ES_smooth_alpha (s : ES.t) (v : Q) :
  ES.alpha (snd (ES.smooth s v)) = ES.alpha s.
Proof. unfold ES.smooth. destruct (ES.smoothed_value s); reflexivity. Qed.

Lemma ES_smooth_stores (s : ES.t) (v : Q) :
  ES.smoothed_value (snd (ES.smooth s v)) = Some (fst (ES.smooth s v)).
Proof. unfold ES.smooth. destruct (ES.smoothed_value s); reflexivity. Qed.



Lemma within_cons (l : list Q) (q v : Q) : within l q -> within (v :: l) q.
Proof.
  intros (lo & hi & Hlo & Hhi & Hb).
  exists lo, hi. repeat split; try (right; assumption); apply Hb.
Qed.

Lemma convex_within (l : list Q) (a v p : Q) :
  0 <= a <= 1 -> within l p -> within (v :: l) (a * v + (1 - a) * p).
Proof.
  intros [Ha0 Ha1] (lo & hi & Hlo & Hhi & [Hlp Hph]).
  assert (Hlow : forall m, m <= v -> m <= p -> m <= a * v + (1 - a) * p).
  { intros m Hv Hp.
    assert (0 <= a * (v - m)) by (apply Qmult_le_0_compat; lra).
    assert (0 <= (1 - a) * (p - m)) by (apply Qmult_le_0_compat; lra).
    lra. }
  assert (Hupp : forall m, v <= m -> p <= m -> a * v + (1 - a) * p <= m).
  { intros m Hv Hp.
    assert (0 <= a * (m - v)) by (apply Qmult_le_0_compat; lra).
    assert (0 <= (1 - a) * (m - p)) by (apply Qmult_le_0_compat; lra).
    lra. }
  destruct (Qlt_le_dec v lo) as [Hvl | Hvl];
    destruct (Qlt_le_dec hi v) as [Hvh | Hvh].
  - exists v, v. repeat split; try (left; reflexivity).
    + apply Hlow; lra.
    + apply Hupp; lra.
  - exists v, hi. repeat split; [left; reflexivity | right; assumption | |].
    + apply Hlow; lra.
    + apply Hupp; lra.
  - exists lo, v. repeat split; [right; assumption | left; reflexivity | |].
    + apply Hlow; lra.
    + apply Hupp; lra.
  - exists lo, hi. repeat split; try (right; assumption).
    + apply Hlow; lra.
    + apply Hupp; lra.
Qed.

Lemma smooth_within (s : ES.t) (seen : list Q) (v : Q) :
  smoother_inv s seen -> within (v :: seen) (fst (ES.smooth s v)).
Proof.
  intros [Ha Hp]. unfold ES.smooth.
  destruct (ES.smoothed_value s) as [p|]; cbn.
  - apply convex_within; assumption.
  - exists v, v. repeat split; try (left; reflexivity); lra.
Qed.

Lemma call_inv (s : ES.t) (seen : list Q) (c : SmootherCall) :
  smoother_inv s seen -> smoother_inv (call s c) (inputs_from seen [c]).
Proof.
  intros Hinv. destruct c as [v | a |]; cbn.
  - split.
    + rewrite ES_smooth_alpha. apply Hinv.
    + rewrite ES_smooth_stores. apply smooth_within. exact Hinv.
  - split; [apply clamp01_bounds | apply Hinv].
  - split; [apply Hinv | exact I].
Qed.

Lemma calls_inv (cs : list SmootherCall) :
  forall (s : ES.t) (seen : list Q),
    smoother_inv s seen -> smoother_inv (calls s cs) (inputs_from seen cs).
Proof.
  induction cs as [| c cs IH]; intros s seen Hinv.
  - exact Hinv.
  - change (calls s (c :: cs)) with (calls (call s c) cs).
    replace (inputs_from seen (c :: cs))
      with (inputs_from (inputs_from seen [c]) cs)
      by (destruct c; reflexivity).
    apply IH, call_inv, Hinv.
Qed.

Lemma inputs_from_snoc (cs : list SmootherCall) :
  forall (seen : list Q) (v : Q),
    inputs_from seen (cs ++ [CallSmooth v]) = v :: inputs_from seen cs.
Proof.
  induction cs as [| c cs IH]; intros seen v.
  - reflexivity.
  - destruct c; cbn; apply IH.
Qed.

(** C9 as stated fails in binary64: at the default factor 0.15 a fresh
    smoother given 13.0 twice returns 13.0 and then 12.999999999999998, a
    value below both of its inputs.  The factor it stores, the double nearest
    to 0.15, lies within [0,1]; only the rounding of the two products and of
    the sum takes the result out of the range. *)
Lemma smooth_binary64_leaves_input_range :
  let s0 := Float64.ExponentialSmoother.init 0.15%float in
  let r1 := Float64.ExponentialSmoother.smooth s0 13%float in
  let r2 := Float64.ExponentialSmoother.smooth (snd r1) 13%float in
  Float64.ExponentialSmoother.alpha s0 = 0x1.3333333333333p-3%float
  /\ fst r1 = 13%float
  /\ fst r2 = 0x1.9ffffffffffffp+3%float
  /\ PrimFloat.ltb (fst r2) 13%float = true
  /\ PrimFloat.leb 13%float (fst r2) = false.
Proof.
  repeat split.
Qed.

(** C9, amended.  For the filter's formula evaluated in exact arithmetic:
    whatever alpha a smoother is built with and whatever calls ([smooth],
    [set_alpha], [reset]) it has received, the value the next [smooth v]
    returns lies between two of the inputs given since the last reset ([v]
    included), hence between their minimum and maximum; and the stored alpha
    is always within [0,1]. *)
Theorem smooth_output_within_inputs (a0 : Q) (cs : list SmootherCall) (v : Q) :
  let s := calls (ES.init a0) cs in
  0 <= ES.alpha s <= 1
  /\ within (inputs_since_reset (cs ++ [CallSmooth v])) (fst (ES.smooth s v)).
Proof.
  intro s.
  assert (Hinv : smoother_inv s (inputs_since_reset cs)).
  { apply calls_inv. split; [apply clamp01_bounds | exact I]. }
  split; [apply Hinv |].
  unfold inputs_since_reset. rewrite inputs_from_snoc.
  apply smooth_within. exact Hinv.
Qed.

(** ** The transform smoother *)

Lemma limiter_idle (limit v : Q) :
  0 <= limit -> Qltb limit (Qabs (v - v)) = false.
Proof.
  intro H. apply Qltb_false_iff.
  apply Qabs_Qle_condition. split; lra.
Qed.

(** With a non-negative shift limit the velocity limiter never fires: the
    limiter compares each smoothed value with the value the filter has just
    stored, so its delta is [v - v], and [smooth_transform] returns the three
    plain exponential averages. *)
Lemma smooth_transform_unlimited (s : TS.t) (tx ty tz : Q) :
  (0 <= TS.max_shift_per_frame s)%Z ->
  TS.smooth_transform s tx ty tz =
  ((fst (ES.smooth (TS.x_smoother s) tx),
    fst (ES.smooth (TS.y_smoother s) ty),
    fst (ES.smooth (TS.zoom_smoother s) tz)),
   {| TS.x_smoother := snd (ES.smooth (TS.x_smoother s) tx);
      TS.y_smoother := snd (ES.smooth (TS.y_smoother s) ty);
      TS.zoom_smoother := snd (ES.smooth (TS.zoom_smoother s) tz);
      TS.max_shift_per_frame := TS.max_shift_per_frame s |}).
Proof.
  intro Hm.
  assert (Hl : 0 <= inject_Z (TS.max_shift_per_frame s)).
  { change 0 with (inject_Z 0). rewrite <- Zle_Qle. exact Hm. }
  unfold TS.smooth_transform.
  pose proof (ES_smooth_stores (TS.x_smoother s) tx) as Hx.
  pose proof (ES_smooth_stores (TS.y_smoother s) ty) as Hy.
  destruct (ES.smooth (TS.x_smoother s) tx) as [vx xs].
  destruct (ES.smooth (TS.y_smoother s) ty) as [vy ys].
  destruct (ES.smooth (TS.zoom_smoother s) tz) as [vz zs].
  cbn [fst snd] in *. rewrite Hx, Hy.
  rewrite !limiter_idle by exact Hl.
  reflexivity.
Qed.

(** C1, at the default settings (alpha 0.15, limit 50 pixels): the targets
    x = 0 and then x = 1000 give the outputs 0 and 150, a step of 150 > 50;
    the stored x value after the second call is the unclamped 150. *)
Theorem smooth_transform_step_exceeds_limit :
  let s0 := TS.init (15 # 100) 50 in
  let r1 := TS.smooth_transform s0 0 360 1 in
  let r2 := TS.smooth_transform (snd r1) 1000 360 1 in
  let x1 := fst (fst (fst r1)) in
  let x2 := fst (fst (fst r2)) in
  x1 == 0
  /\ x2 == 150
  /\ inject_Z (TS.max_shift_per_frame (snd r1)) < Qabs (x2 - x1)
  /\ ES.smoothed_value (TS.x_smoother (snd r2)) = Some x2.
Proof.
  vm_compute. repeat split.
Qed.

(** ** The tracking state machine *)

Lemma lose_keeps (ts : list Q) :
  forall s : TrackingState.t,
    TrackingState.memory_duration (lose s ts) = TrackingState.memory_duration s
    /\ TrackingState.last_bbox (lose s ts) = TrackingState.last_bbox s
    /\ TrackingState.last_detection_time (lose s ts)
       = TrackingState.last_detection_time s.
Proof.
  induction ts as [| t ts IH]; intro s.
  - repeat split.
  - change (lose s (t :: ts))
      with (lose (snd (TrackingState.update s None t)) ts).
    destruct (IH (snd (TrackingState.update s None t))) as (H1 & H2 & H3).
    rewrite H1, H2, H3. cbn.
    destruct (TrackingState.last_detection_time s); repeat split.
Qed.

Lemma lose_never_detected (ts : list Q) :
  forall s : TrackingState.t,
    TrackingState.last_detection_time s = None ->
    TrackingState.status s = LOST_LONG ->
    TrackingState.status (lose s ts) = LOST_LONG.
Proof.
  induction ts as [| t ts IH]; intros s Hn Hs.
  - exact Hs.
  - change (lose s (t :: ts))
      with (lose (snd (TrackingState.update s None t)) ts).
    apply IH; cbn; rewrite Hn; reflexivity.
Qed.

(** C3.  A tracker in any state receives a detection [d] at time 0 and then,
    at arbitrary times [ts], no detection.  The detection update returns
    [TRACKING] and exposes [d]'s bbox.  A further update without detection at
    time [t] returns [LOST_RECENT] and still exposes exactly that bbox when
    [0 < t < memory_duration], and returns [LOST_LONG] and exposes nothing
    when [t >= memory_duration].  A tracker that never saw a detection
    exposes nothing either. *)
Theorem tracking_single_detection_timeline
    (s0 : TrackingState.t) (d : FaceDetection) (ts : list Q) (t : Q) :
  let md := TrackingState.memory_duration s0 in
  let r0 := TrackingState.update s0 (Some d) 0 in
  let r := TrackingState.update (lose (snd r0) ts) None t in
  (fst r0 = TRACKING
   /\ TrackingState.get_target_bbox (snd r0) = Some (bbox d))
  /\ (0 < t -> t < md ->
      fst r = LOST_RECENT
      /\ TrackingState.get_target_bbox (snd r) = Some (bbox d))
  /\ (md <= t ->
      fst r = LOST_LONG
      /\ TrackingState.get_target_bbox (snd r) = None)
  /\ TrackingState.get_target_bbox (TrackingState.init md) = None
  /\ TrackingState.get_target_bbox (lose (TrackingState.init md) (ts ++ [t]))
     = None.
Proof.
  intros md r0 r.
  destruct (lose_keeps ts (snd r0)) as (Hmd & Hbb & Htm).
  assert (Hr : r = TrackingState.update (lose (snd r0) ts) None t)
    by reflexivity.
  unfold TrackingState.update in Hr.
  rewrite Htm, Hmd, Hbb in Hr.
  cbn in Hr. fold md in Hr.
  split; [split; reflexivity |].
  split; [| split; [| split]].
  - intros _ Hlt.
    assert (E : Qltb (t - 0) md = true) by (apply Qltb_true_iff; lra).
    rewrite E in Hr. rewrite Hr. split; reflexivity.
  - intros Hge.
    assert (E : Qltb (t - 0) md = false) by (apply Qltb_false_iff; lra).
    rewrite E in Hr. rewrite Hr. split; reflexivity.
  - reflexivity.
  - unfold TrackingState.get_target_bbox.
    rewrite lose_never_detected; reflexivity.
Qed.

Lemma tracking_single_detection_timeline_witness :
  let d := mkFaceDetection (560, 260, 160, 160)%Z (9 # 10) (640, 340)%Z in
  let s1 := snd (TrackingState.update (TrackingState.init 2) (Some d) 0) in
  TrackingState.get_target_bbox
    (snd (TrackingState.update (lose s1 [1 # 2]) None 1))
  = Some (560, 260, 160, 160)%Z
  /\ TrackingState.get_target_bbox
       (snd (TrackingState.update (lose s1 [1 # 2]) None 2))
     = None.
Proof.
  intros d s1. split.
  - refine (proj2 (proj1 (proj2 (tracking_single_detection_timeline
                                   (TrackingState.init 2) d [1 # 2] 1)) _ _));
      reflexivity.
  - refine (proj2 (proj1 (proj2 (proj2 (tracking_single_detection_timeline
                                          (TrackingState.init 2) d [1 # 2] 2))) _));
      discriminate.
Defined.

(** ** The frame transformer *)

Lemma inject_Z_pos (z : Z) : (0 < z)%Z -> 0 < inject_Z z.
Proof. intro H. change 0 with (inject_Z 0). rewrite <- Zlt_Qlt. exact H. Qed.

Lemma ratio_pos (h fh : Z) :
  (0 < h)%Z -> (0 < fh)%Z -> 0 < inject_Z h / inject_Z fh.
Proof.
  intros Hh Hfh. apply Qlt_shift_div_l.
  - apply inject_Z_pos, Hfh.
  - rewrite Qmult_0_l. apply inject_Z_pos, Hh.
Qed.

(** A frame that passes the [frame.size == 0] guard of [process] has a
    positive height, so [_calculate_zoom] is only ever called with one. *)
Lemma nonempty_frame_height_pos (f : Frame) :
  size f <> 0%Z -> (0 < fst (shape f))%Z.
Proof.
  unfold size. destruct (shape f) as [height width] eqn:E. cbn.
  intro H.
  assert (Hh : (0 <= height)%Z).
  { unfold shape in E. inversion E. apply Nat2Z.is_nonneg. }
  destruct (Z.eq_dec height 0) as [-> | Hne]; [| lia].
  exfalso. apply H. reflexivity.
Qed.

(** C4.  For a frame of positive height: a face height [h <= 0] gives
    [min_zoom], and it does so for every frame height, zero included, since
    no division is reached; a face height [h > 0] gives
    [target_face_ratio / (h / frame_height)] put through
    [max(min_zoom, min(max_zoom, .))], which lies in [min_zoom, max_zoom]
    when [min_zoom <= max_zoom] and is the quotient itself when that already
    lies there; [h = frame_height * target_face_ratio] makes the quotient 1;
    and 720, 160, 0.4, 1.0, 3.0 give 1.8, the unclamped quotient. *)
Theorem calculate_zoom_clamped_ratio (fp : FP.t) (h fh : Z) (Hfh : (0 < fh)%Z) :
  let cfg := FP.config fp in
  let raw := PC.target_face_ratio cfg / (inject_Z h / inject_Z fh) in
  ((h <= 0)%Z ->
   forall any_height : Z,
     FP._calculate_zoom fp h any_height = Returned (PC.min_zoom cfg))
  /\ ((0 < h)%Z ->
      FP._calculate_zoom fp h fh
      = Returned (py_max (PC.min_zoom cfg) (py_min (PC.max_zoom cfg) raw))
      /\ (PC.min_zoom cfg <= PC.max_zoom cfg ->
          PC.min_zoom cfg
          <= py_max (PC.min_zoom cfg) (py_min (PC.max_zoom cfg) raw)
          <= PC.max_zoom cfg)
      /\ (PC.min_zoom cfg <= raw <= PC.max_zoom cfg ->
          py_max (PC.min_zoom cfg) (py_min (PC.max_zoom cfg) raw) == raw)
      /\ (inject_Z h == inject_Z fh * PC.target_face_ratio cfg -> raw == 1))
  /\ (forall (sf : Q) (msf : Z) (sm : TS.t) (fc : option (Z * Z)),
        exists z,
          FP._calculate_zoom
            (FP.mk (PC.mk (4 # 10) 1 3 sf msf) sm fc) 160 720 = Returned z
          /\ z == 18 # 10
          /\ z == (4 # 10) / (inject_Z 160 / inject_Z 720)).
Proof.
  intros cfg raw. split; [| split].
  - intros Hh any. unfold FP._calculate_zoom.
    destruct (Z.leb_spec h 0) as [_ | Hc]; [reflexivity | lia].
  - intro Hh.
    pose proof (ratio_pos h fh Hh Hfh) as Hr.
    split; [| split; [| split]].
    + unfold FP._calculate_zoom.
      destruct (Z.leb_spec h 0) as [Hc | _]; [lia |].
      destruct (Z.eqb_spec fh 0) as [Hc | _]; [lia |].
      destruct (Qeq_bool (inject_Z h / inject_Z fh) 0) eqn:E.
      * apply Qeq_bool_iff in E. lra.
      * reflexivity.
    + apply clamp_between.
    + apply clamp_inside.
    + intro Heq. unfold raw. rewrite Heq.
      assert (Hf : 0 < inject_Z fh) by (apply inject_Z_pos, Hfh).
      assert (Ht : 0 < PC.target_face_ratio cfg).
      { assert (Hp : 0 < inject_Z fh * PC.target_face_ratio cfg)
          by (rewrite <- Heq; apply inject_Z_pos, Hh).
        destruct (Qlt_le_dec 0 (PC.target_face_ratio cfg)) as [Hpos | Hneg];
          [exact Hpos |].
        exfalso.
        assert (0 <= inject_Z fh * (- PC.target_face_ratio cfg))
          by (apply Qmult_le_0_compat; lra).
        lra. }
      field. split; lra.
  - intros sf msf sm fc. eexists. split; [reflexivity |].
    split; reflexivity.
Qed.

Lemma calculate_zoom_clamped_ratio_witness :
  FP._calculate_zoom
    (FP.init (PC.mk (4 # 10) 1 3 (15 # 100) 50)) 0 720 = Returned 1
  /\ FP._calculate_zoom
       (FP.init (PC.mk (4 # 10) 1 3 (15 # 100) 50)) 288 720
     = Returned (py_max 1 (py_min 3 ((4 # 10) / (inject_Z 288 / inject_Z 720))))
  /\ (4 # 10) / (inject_Z 288 / inject_Z 720) == 1.
Proof.
  assert (Hfh : (0 < 720)%Z) by reflexivity.
  pose proof (calculate_zoom_clamped_ratio
                (FP.init (PC.mk (4 # 10) 1 3 (15 # 100) 50)) 0 720 Hfh)
    as (H0 & _ & _).
  pose proof (calculate_zoom_clamped_ratio
                (FP.init (PC.mk (4 # 10) 1 3 (15 # 100) 50)) 288 720 Hfh)
    as (_ & H1 & _).
  assert (Hh : (0 < 288)%Z) by reflexivity.
  destruct (H1 Hh) as (Hz & _ & _ & Hone).
  split; [| split].
  - apply H0. discriminate.
  - exact Hz.
  - apply Hone. reflexivity.
Defined.

(** C5 as stated fails: the constructor accepts a configuration whose ratios
    lie outside (0,1) and whose zoom bounds are below 1 and inverted. *)
Lemma config_out_of_range_accepted :
  ~ spec_valid 2 (1 # 2) (1 # 4) 5
  /\ PC.init 2 (1 # 2) (1 # 4) 5 (-7) = Returned (PC.mk 2 (1 # 2) (1 # 4) 5 (-7))
  /\ ~ (forall (tfr minz maxz sf : Q) (msf : Z),
          ~ spec_valid tfr minz maxz sf ->
          exists e, PC.init tfr minz maxz sf msf = Raised e).
Proof.
  assert (Hbad : ~ spec_valid 2 (1 # 2) (1 # 4) 5).
  { intros ((_ & H) & _). revert H. discriminate. }
  split; [exact Hbad | split; [reflexivity |]].
  intro H. destruct (H 2 (1 # 2) (1 # 4) 5 (-7)%Z Hbad) as [e He].
  discriminate He.
Qed.

(** C5, amended.  Constructing a configuration never fails and stores every
    field as given, whatever the values; the same holds for the application
    configuration.  The one normalisation the code does is on the smoothing
    factor: on its way into the three filters, at construction of the
    processor and on every [update_config], each filter's factor becomes
    [max(0, min(1, smoothing_factor))], which lies within [0,1]; the shift
    limit is passed on as given. *)
Theorem config_stored_unvalidated
    (tfr minz maxz sf : Q) (msf : Z)
    (ci : Z) (res : Z * Z) (f : Z) (ts : Q) (zl : string) (fsr mdc mcp : Q)
    (gpu : bool) :
  PC.init tfr minz maxz sf msf = Returned (PC.mk tfr minz maxz sf msf)
  /\ AppConfig.init ci res f ts zl fsr mdc mcp gpu
     = Returned (AppConfig.mk ci res f ts zl fsr mdc mcp gpu)
  /\ (let fp := FP.init (PC.mk tfr minz maxz sf msf) in
      FP.config fp = PC.mk tfr minz maxz sf msf
      /\ 0 <= ES.alpha (TS.x_smoother (FP.smoother fp)) <= 1
      /\ 0 <= ES.alpha (TS.y_smoother (FP.smoother fp)) <= 1
      /\ 0 <= ES.alpha (TS.zoom_smoother (FP.smoother fp)) <= 1
      /\ TS.max_shift_per_frame (FP.smoother fp) = msf
      /\ ES.alpha (TS.x_smoother (FP.smoother fp)) = py_max 0 (py_min 1 sf)
      /\ ES.alpha (TS.y_smoother (FP.smoother fp)) = py_max 0 (py_min 1 sf)
      /\ ES.alpha (TS.zoom_smoother (FP.smoother fp)) = py_max 0 (py_min 1 sf))
  /\ (forall fp0 : FP.t,
        let fp := FP.update_config fp0 (PC.mk tfr minz maxz sf msf) in
        FP.config fp = PC.mk tfr minz maxz sf msf
        /\ 0 <= ES.alpha (TS.x_smoother (FP.smoother fp)) <= 1
        /\ 0 <= ES.alpha (TS.y_smoother (FP.smoother fp)) <= 1
        /\ 0 <= ES.alpha (TS.zoom_smoother (FP.smoother fp)) <= 1
        /\ TS.max_shift_per_frame (FP.smoother fp) = msf
        /\ ES.alpha (TS.x_smoother (FP.smoother fp)) = py_max 0 (py_min 1 sf)
        /\ ES.alpha (TS.y_smoother (FP.smoother fp)) = py_max 0 (py_min 1 sf)
        /\ ES.alpha (TS.zoom_smoother (FP.smoother fp))
           = py_max 0 (py_min 1 sf))
  /\ (0 <= sf <= 1 -> py_max 0 (py_min 1 sf) == sf)
  /\ (sf < 0 -> py_max 0 (py_min 1 sf) == 0)
  /\ (1 < sf -> py_max 0 (py_min 1 sf) == 1).
Proof.
  split; [reflexivity | split; [reflexivity | split; [| split]]].
  - cbn. repeat split; apply clamp01_bounds.
  - intro fp0. cbn. repeat split; apply clamp01_bounds.
  - split; [apply clamp01_id | split]; intro H; unfold py_max, py_min.
    + case_Qltb sf 1; [| lra]. case_Qltb 0 sf; [lra | reflexivity].
    + case_Qltb sf 1; [lra |]. case_Qltb 0 1; [reflexivity | lra].
Qed.

Lemma config_stored_unvalidated_witness :
  py_max 0 (py_min 1 5) == 1 /\ py_max 0 (py_min 1 (15 # 100)) == 15 # 100.
Proof.
  destruct (config_stored_unvalidated 2 (1 # 2) (1 # 4) 5 (-7)
              0 (1280, 720)%Z 30 5 "medium" 2 (1 # 2) 25 false)
    as (_ & _ & _ & _ & _ & _ & Hhigh).
  destruct (config_stored_unvalidated (4 # 10) 1 3 (15 # 100) 50
              0 (1280, 720)%Z 30 (15 # 100) "medium" (4 # 10) (1 # 2) 25 false)
    as (_ & _ & _ & _ & Hmid & _).
  split; [apply Hhigh; reflexivity | apply Hmid; split; discriminate].
Defined.

(** C6.  With no target, [process] returns the frame it was given, whatever
    the frame, and leaves the smoother (and the configuration) as they
    were. *)
Theorem process_no_target_passthrough
    (cv2_resize : Frame -> Z -> Z -> Outcome Frame)
    (fp : FP.t) (frame : option Frame) :
  fst (FP.process cv2_resize fp frame None) = Returned frame
  /\ FP.smoother (snd (FP.process cv2_resize fp frame None)) = FP.smoother fp
  /\ FP.config (snd (FP.process cv2_resize fp frame None)) = FP.config fp.
Proof.
  unfold FP.process.
  destruct frame as [f |]; [| repeat split].
  destruct (size f =? 0)%Z; [repeat split |].
  destruct (shape f) as [height width].
  destruct (FP.frame_center fp); repeat split.
Qed.

(** C10.  Given no frame, or a frame of size 0, [process] returns what it
    was given and the whole processor, smoother included, is as before,
    whatever the target. *)
Theorem process_empty_frame_untouched
    (cv2_resize : Frame -> Z -> Z -> Outcome Frame)
    (fp : FP.t) (frame : option Frame) (target_bbox : option BBox)
    (Hempty : frame = None \/ exists f, frame = Some f /\ size f = 0%Z) :
  FP.process cv2_resize fp frame target_bbox = (Returned frame, fp).
Proof.
  destruct Hempty as [-> | (f & -> & Hsz)]; [reflexivity |].
  unfold FP.process. rewrite Hsz. reflexivity.
Qed.

Lemma process_empty_frame_untouched_witness :
  let fp := FP.init (PC.mk (4 # 10) 1 3 (15 # 100) 50) in
  let resize := fun (roi : Frame) (_ _ : Z) => Returned roi in
  FP.process resize fp None (Some (560, 260, 160, 160)%Z) = (Returned None, fp)
  /\ FP.process resize fp (Some [[]; []]) (Some (560, 260, 160, 160)%Z)
     = (Returned (Some [[]; []]), fp).
Proof.
  intros fp resize. split.
  - apply process_empty_frame_untouched. left. reflexivity.
  - apply process_empty_frame_untouched. right.
    exists [[]; []]. split; reflexivity.
Defined.

(** C8.  [update_config] installs the new configuration, gives each of the
    three filters the new smoothing factor (clamped into [0,1], hence the
    factor itself when it lies there), gives the smoother the new shift
    limit, and leaves the three stored smoothed values and the frame centre
    as they were. *)
Theorem update_config_keeps_history (fp : FP.t) (cfg : PC.t) :
  let fp' := FP.update_config fp cfg in
  let a := py_max 0 (py_min 1 (PC.smoothing_factor cfg)) in
  FP.config fp' = cfg
  /\ (ES.alpha (TS.x_smoother (FP.smoother fp')) = a
      /\ ES.alpha (TS.y_smoother (FP.smoother fp')) = a
      /\ ES.alpha (TS.zoom_smoother (FP.smoother fp')) = a)
  /\ (0 <= PC.smoothing_factor cfg <= 1 -> a == PC.smoothing_factor cfg)
  /\ TS.max_shift_per_frame (FP.smoother fp') = PC.max_shift_per_frame cfg
  /\ (ES.smoothed_value (TS.x_smoother (FP.smoother fp'))
      = ES.smoothed_value (TS.x_smoother (FP.smoother fp))
      /\ ES.smoothed_value (TS.y_smoother (FP.smoother fp'))
         = ES.smoothed_value (TS.y_smoother (FP.smoother fp))
      /\ ES.smoothed_value (TS.zoom_smoother (FP.smoother fp'))
         = ES.smoothed_value (TS.zoom_smoother (FP.smoother fp)))
  /\ FP.frame_center fp' = FP.frame_center fp.
Proof.
  cbn. repeat split. apply clamp01_id.
Qed.

Lemma update_config_keeps_history_witness :
  let fp := FP.init (PC.mk (4 # 10) 1 3 (15 # 100) 50) in
  py_max 0 (py_min 1 (PC.smoothing_factor (PC.mk (5 # 10) 1 3 (6 # 10) 20)))
  == 6 # 10.
Proof.
  intro fp.
  refine (proj1 (proj2 (proj2 (update_config_keeps_history fp
                                 (PC.mk (5 # 10) 1 3 (6 # 10) 20)))) _).
  split; discriminate.
Defined.

(** ** The pipeline loop *)

Section LoopProperties.

Variable cv2_resize : Frame -> Z -> Z -> Outcome Frame.

(** A controller that has just been constructed and started is running with
    its failure counter at zero. *)
Lemma started_controller_counter_zero (cfg : AppConfig.t) (env : CC.StartEnv) :
  fst (CC.start (CC.init cfg) env) = true ->
  CC.running (snd (CC.start (CC.init cfg) env)) = true
  /\ CC.frame_read_failures (snd (CC.start (CC.init cfg) env)) = 0%Z.
Proof.
  unfold CC.start. cbn [CC.running CC.init].
  destruct (CC.camera_opened env) as [[|] | e]; try discriminate.
  destruct (CC.detector_init env) as [u | e]; try discriminate.
  destruct (CC.virtual_camera_init env) as [u' | e]; try discriminate.
  intros _. split; reflexivity.
Qed.

Lemma tick_failed_read (c : CC.t) (env : CC.TickEnv) :
  failed_read env ->
  CC.tick cv2_resize c env =
  let c1 := CC.set_frame_read_failures c (CC.frame_read_failures c + 1) in
  if (3 <? CC.frame_read_failures c + 1)%Z
  then CC.set_running
         (CC.set_error_message c1 (Some "Camera connection lost")) false
  else c1.
Proof.
  intro H. unfold CC.tick. rewrite H. reflexivity.
Qed.

Lemma tick_good_read (c : CC.t) (env : CC.TickEnv) (f : Frame) :
  CC.read_frame env = Returned (Some f) ->
  CC.frame_read_failures (CC.tick cv2_resize c env) = 0%Z
  /\ CC.running (CC.tick cv2_resize c env) = CC.running c.
Proof.
  intro H. unfold CC.tick. rewrite H.
  destruct c as [cfg ots ofp run q n st cur zm low shown err k].
  cbn [CC.tracking_state CC.frame_processor CC.set_frame_read_failures
       CC.set_tracking_state CC.set_frame_processor CC.config
       CC.running CC.frame_queue CC.fps_counter CC.fps_start_time
       CC.current_fps CC.current_zoom CC.low_fps_counter
       CC.low_fps_warning_shown CC.error_message CC.frame_read_failures].
  destruct (CC.detect env) as [detection | e]; [| split; reflexivity].
  destruct ots as [ts |]; [| split; reflexivity].
  destruct (TrackingState.update ts detection (CC.current_time env))
    as [s ts'].
  destruct ofp as [fp |]; [| split; reflexivity].
  destruct (FP.process cv2_resize fp (Some f)
              (TrackingState.get_target_bbox ts')) as [out fp'].
  destruct out as [pf | e]; [| split; reflexivity].
  destruct (CC.send_frame env) as [u | e]; [| split; reflexivity].
  unfold CC.update_fps.
  repeat match goal with
         | |- context [if ?b then _ else _] => destruct b
         | |- context [match ?x with Some _ => _ | None => _ end] =>
             destruct x
         end; split; reflexivity.
Qed.

Lemma loop_stopped (envs : list CC.TickEnv) (c : CC.t) :
  CC.running c = false -> CC._process_loop cv2_resize c envs = c.
Proof.
  intro H. destruct envs as [| env rest]; [reflexivity |].
  cbn. rewrite H. reflexivity.
Qed.

Lemma loop_app (a b : list CC.TickEnv) :
  forall c : CC.t,
    CC._process_loop cv2_resize c (a ++ b)
    = CC._process_loop cv2_resize (CC._process_loop cv2_resize c a) b.
Proof.
  induction a as [| env a IH]; intro c.
  - reflexivity.
  - cbn.
    destruct (CC.running c) eqn:E.
    + apply IH.
    + symmetry. apply loop_stopped. exact E.
Qed.

Lemma loop_tolerated (fails : list CC.TickEnv) :
  forall c : CC.t,
    CC.running c = true ->
    Forall failed_read fails ->
    (CC.frame_read_failures c + Z.of_nat (length fails) <= 3)%Z ->
    CC._process_loop cv2_resize c fails =
    CC.set_frame_read_failures c
      (CC.frame_read_failures c + Z.of_nat (length fails)).
Proof.
  induction fails as [| env fails IH]; intros c Hrun Hall Hle.
  - cbn. rewrite Z.add_0_r. destruct c; reflexivity.
  - inversion Hall as [| ? ? Henv Hrest]; subst.
    cbn [length] in Hle. rewrite Nat2Z.inj_succ in Hle.
    cbn [CC._process_loop]. rewrite Hrun.
    rewrite (tick_failed_read c env Henv). cbv zeta.
    destruct (Z.ltb_spec 3 (CC.frame_read_failures c + 1)) as [Hc | _];
      [lia |].
    rewrite IH; [| exact Hrun | exact Hrest | cbn; lia].
    cbn [length]. rewrite Nat2Z.inj_succ. cbn.
    unfold CC.set_frame_read_failures. cbn. f_equal. lia.
Qed.

(** C2.  A failed read adds one to [frame_read_failures] and a successful
    read puts it back to zero (without stopping the loop).  Starting from
    a running loop whose counter is zero, up to three failed reads in a
    row leave the loop running with its error message as it was; the
    fourth stops it ([running] false) with the message
    [Camera connection lost]; and a stopped loop takes no further
    iteration, whatever the camera would answer. *)
Theorem four_failed_reads_stop_loop
    (c : CC.t) (fails more : list CC.TickEnv)
    (Hrun : CC.running c = true)
    (Hzero : CC.frame_read_failures c = 0%Z)
    (Hfails : Forall failed_read fails) :
  let c' := CC._process_loop cv2_resize c fails in
  (forall (c1 : CC.t) (env : CC.TickEnv),
      failed_read env ->
      CC.frame_read_failures (CC.tick cv2_resize c1 env)
      = (CC.frame_read_failures c1 + 1)%Z)
  /\ (forall (c1 : CC.t) (env : CC.TickEnv) (f : Frame),
        CC.read_frame env = Returned (Some f) ->
        CC.frame_read_failures (CC.tick cv2_resize c1 env) = 0%Z
        /\ CC.running (CC.tick cv2_resize c1 env) = CC.running c1)
  /\ ((length fails <= 3)%nat ->
      CC.running c' = true
      /\ CC.frame_read_failures c' = Z.of_nat (length fails)
      /\ CC.error_message c' = CC.error_message c)
  /\ (length fails = 4%nat ->
      CC.running c' = false
      /\ CC.frame_read_failures c' = 4%Z
      /\ CC.error_message c' = Some "Camera connection lost"
      /\ CC._process_loop cv2_resize c (fails ++ more) = c')
  /\ (forall (c1 : CC.t) (envs : list CC.TickEnv),
        CC.running c1 = false -> CC._process_loop cv2_resize c1 envs = c1).
Proof.
  intro c'. split; [| split; [| split; [| split]]].
  - intros c1 env H. rewrite (tick_failed_read c1 env H). cbv zeta.
    destruct (3 <? CC.frame_read_failures c1 + 1)%Z; reflexivity.
  - intros c1 env f H. exact (tick_good_read c1 env f H).
  - intro Hlen. unfold c'.
    rewrite loop_tolerated; [| exact Hrun | exact Hfails | lia].
    rewrite Hzero. cbn. repeat split. exact Hrun.
  - intro Hlen.
    destruct fails as [| e1 [| e2 [| e3 [| e4 [| e5 rest]]]]];
      try discriminate Hlen.
    assert (H3 : Forall failed_read [e1; e2; e3]).
    { inversion Hfails as [| ? ? ? H1]; subst.
      inversion H1 as [| ? ? ? H2]; subst.
      inversion H2 as [| ? ? ? H3]; subst.
      repeat constructor; assumption. }
    assert (H4 : failed_read e4).
    { inversion Hfails as [| ? ? ? H1]; subst.
      inversion H1 as [| ? ? ? H2]; subst.
      inversion H2 as [| ? ? ? H5]; subst.
      inversion H5; assumption. }
    assert (Hc' : c' =
                  CC.set_running
                    (CC.set_error_message
                       (CC.set_frame_read_failures c 4)
                       (Some "Camera connection lost")) false).
    { unfold c'.
      change [e1; e2; e3; e4] with ([e1; e2; e3] ++ [e4])%list.
      rewrite loop_app.
      rewrite (loop_tolerated [e1; e2; e3] c Hrun H3)
        by (rewrite Hzero; cbn; lia).
      rewrite Hzero. cbn [CC._process_loop].
      cbn [CC.running CC.set_frame_read_failures]. rewrite Hrun.
      rewrite (tick_failed_read _ e4 H4). reflexivity. }
    assert (Hstop : CC.running c' = false) by (rewrite Hc'; reflexivity).
    repeat split.
    + exact Hstop.
    + rewrite Hc'. reflexivity.
    + rewrite Hc'. reflexivity.
    + rewrite loop_app. fold c'. apply loop_stopped. exact Hstop.
  - intros c1 envs H. apply loop_stopped. exact H.
Qed.

End LoopProperties.

Lemma four_failed_reads_stop_loop_witness :
  let resize := fun (roi : Frame) (_ _ : Z) => Returned roi in
  let c :=
    snd (CC.start (CC.init AppConfig.default)
           (CC.mkStartEnv (Returned true) (Returned tt) (Returned tt) 0)) in
  let lost := CC.mkTickEnv (Returned None) (Returned None) 0 (Returned tt) in
  CC.running (CC._process_loop resize c [lost; lost; lost]) = true
  /\ CC.running (CC._process_loop resize c [lost; lost; lost; lost]) = false
  /\ CC.error_message (CC._process_loop resize c [lost; lost; lost; lost])
     = Some "Camera connection lost".
Proof.
  intros resize c lost.
  assert (Hrun : CC.running c = true) by reflexivity.
  assert (Hzero : CC.frame_read_failures c = 0%Z) by reflexivity.
  assert (H3 : Forall failed_read [lost; lost; lost])
    by (repeat constructor).
  assert (H4 : Forall failed_read [lost; lost; lost; lost])
    by (repeat constructor).
  pose proof (four_failed_reads_stop_loop resize c [lost; lost; lost] []
                Hrun Hzero H3) as (_ & _ & Hthree & _).
  pose proof (four_failed_reads_stop_loop resize c [lost; lost; lost; lost] []
                Hrun Hzero H4) as (_ & _ & _ & Hfour & _).
  destruct Hthree as (Hr3 & _); [cbn; lia |].
  destruct Hfour as (Hr4 & _ & He4 & _); [reflexivity |].
  split; [exact Hr3 | split; [exact Hr4 | exact He4]].
Defined.

(** * Further properties of the code *)

(** ** smoothing.py *)

Lemma calls_alpha_bounds (a0 : Q) (cs : list SmootherCall) :
  0 <= ES.alpha (calls (ES.init a0) cs) <= 1.
Proof.
  apply (calls_inv cs (ES.init a0) []).
  split; [apply clamp01_bounds | exact I].
Qed.

Lemma convex_between (a p v : Q) :
  0 <= a <= 1 ->
  (p <= v -> p <= a * v + (1 - a) * p <= v)
  /\ (v <= p -> v <= a * v + (1 - a) * p <= p).
Proof.
  intros [H0 H1]. split; intro H.
  - assert (0 <= a * (v - p)) by (apply Qmult_le_0_compat; lra).
    assert (0 <= (1 - a) * (v - p)) by (apply Qmult_le_0_compat; lra).
    split; lra.
  - assert (0 <= a * (p - v)) by (apply Qmult_le_0_compat; lra).
    assert (0 <= (1 - a) * (p - v)) by (apply Qmult_le_0_compat; lra).
    split; lra.
Qed.

(** X1.  A smoother that holds a value [p], whatever calls built it, answers
    [smooth v] with a value between [p] and [v]: it moves towards the input
    and never past it. *)
Theorem smooth_step_between
    (a0 : Q) (cs : list SmootherCall) (p v : Q)
    (Hp : ES.smoothed_value (calls (ES.init a0) cs) = Some p) :
  let out := fst (ES.smooth (calls (ES.init a0) cs) v) in
  (p <= v -> p <= out <= v) /\ (v <= p -> v <= out <= p).
Proof.
  cbv zeta. unfold ES.smooth. rewrite Hp. cbn [fst].
  apply convex_between, calls_alpha_bounds.
Qed.

Lemma smooth_step_between_witness :
  let s := calls (ES.init (1 # 4)) [CallSmooth 100] in
  100 <= fst (ES.smooth s 200) <= 200.
Proof.
  intro s.
  refine (proj1 (smooth_step_between (1 # 4) [CallSmooth 100] 100 200 _) _).
  - reflexivity.
  - discriminate.
Defined.

Lemma qpow_unit_interval (q : Q) (n : nat) :
  0 <= q <= 1 -> 0 <= qpow q n <= 1.
Proof.
  intros [H0 H1]. induction n as [| n [IH0 IH1]]; cbn.
  - split; discriminate.
  - split.
    + apply Qmult_le_0_compat; assumption.
    + assert (0 <= (1 - q) * qpow q n) by (apply Qmult_le_0_compat; lra).
      lra.
Qed.

Lemma smooth_repeat_value (n : nat) :
  forall (s : ES.t) (p v : Q),
    ES.smoothed_value s = Some p ->
    exists q,
      ES.smoothed_value (smooth_repeat s v n) = Some q
      /\ q == v + qpow (1 - ES.alpha s) n * (p - v).
Proof.
  induction n as [| n IH]; intros s p v Hp.
  - exists p. split; [exact Hp | cbn; ring].
  - cbn [smooth_repeat].
    destruct (IH (snd (ES.smooth s v)) (fst (ES.smooth s v)) v
                (ES_smooth_stores s v)) as (q & Hq & Heq).
    exists q. split; [exact Hq |].
    rewrite Heq, ES_smooth_alpha.
    unfold ES.smooth. rewrite Hp. cbn [fst qpow]. ring.
Qed.

(** X2.  In exact rational arithmetic (binary64 rounds each step, so the
    code's value can differ from this by rounding error): feeding a smoother
    that holds [p] the same input [v] another [n] times leaves it holding
    [v + (1 - alpha)^n * (p - v)]; the distance to the input shrinks
    geometrically, and for a smoother built through the class's own calls it
    does not grow. *)
Theorem smooth_repeat_closed_form
    (a0 : Q) (cs : list SmootherCall) (p v : Q) (n : nat)
    (Hp : ES.smoothed_value (calls (ES.init a0) cs) = Some p) :
  let s := calls (ES.init a0) cs in
  exists q,
    ES.smoothed_value (smooth_repeat s v n) = Some q
    /\ q == v + qpow (1 - ES.alpha s) n * (p - v)
    /\ Qabs (q - v) <= Qabs (p - v).
Proof.
  intro s.
  destruct (smooth_repeat_value n s p v Hp) as (q & Hq & Heq).
  exists q. split; [exact Hq | split; [exact Heq |]].
  pose proof (calls_alpha_bounds a0 cs) as [Ha0 Ha1]. fold s in Ha0, Ha1.
  assert (Hk : 0 <= qpow (1 - ES.alpha s) n <= 1)
    by (apply qpow_unit_interval; split; lra).
  destruct Hk as [Hk0 Hk1].
  assert (Hd : q - v == qpow (1 - ES.alpha s) n * (p - v))
    by (rewrite Heq; ring).
  rewrite Hd, Qabs_Qmult.
  rewrite (Qabs_pos (qpow (1 - ES.alpha s) n)) by exact Hk0.
  pose proof (Qabs_nonneg (p - v)) as Hn.
  assert (0 <= (1 - qpow (1 - ES.alpha s) n) * Qabs (p - v))
    by (apply Qmult_le_0_compat; lra).
  lra.
Qed.

Lemma smooth_repeat_closed_form_witness :
  exists q,
    ES.smoothed_value
      (smooth_repeat (calls (ES.init (1 # 2)) [CallSmooth 0]) 8 3) = Some q
    /\ q == 7.
Proof.
  destruct (smooth_repeat_closed_form (1 # 2) [CallSmooth 0] 0 8 3 eq_refl)
    as (q & Hq & Heq & _).
  exists q. split; [exact Hq |]. rewrite Heq. reflexivity.
Defined.

(** X3.  The extremes of the smoothing factor.  A factor of 1 or more (stored
    as 1) makes [smooth] return its input; a factor of 0 or less (stored as
    0) makes it return the value it already holds, whatever the input. *)
Theorem set_alpha_extremes (s : ES.t) (a p v : Q)
    (Hp : ES.smoothed_value s = Some p) :
  (1 <= a -> fst (ES.smooth (ES.set_alpha s a) v) == v)
  /\ (a <= 0 -> fst (ES.smooth (ES.set_alpha s a) v) == p).
Proof.
  unfold ES.smooth, ES.set_alpha. cbn [ES.smoothed_value ES.alpha].
  rewrite Hp. cbn [fst]. unfold py_max, py_min.
  split; intro Ha.
  - case_Qltb a 1; [lra |]. case_Qltb 0 1; [ring | lra].
  - case_Qltb a 1; [| lra]. case_Qltb 0 a; [lra | ring].
Qed.

Lemma set_alpha_extremes_witness :
  fst (ES.smooth (ES.set_alpha (snd (ES.smooth (ES.init (1 # 2)) 10)) 5) 30)
  == 30
  /\ fst (ES.smooth (ES.set_alpha (snd (ES.smooth (ES.init (1 # 2)) 10)) (-1)) 30)
     == 10.
Proof.
  split.
  - refine (proj1 (set_alpha_extremes (snd (ES.smooth (ES.init (1 # 2)) 10))
                     5 10 30 eq_refl) _).
    discriminate.
  - refine (proj2 (set_alpha_extremes (snd (ES.smooth (ES.init (1 # 2)) 10))
                     (-1) 10 30 eq_refl) _).
    discriminate.
Defined.

(** X4.  [smooth_transform] never limits the zoom: whatever the shift limit,
    the zoom it returns and stores is the zoom filter's own answer.  The
    axes do not influence each other: the x result and the stored x filter
    are the same for every choice of the y and zoom targets, and likewise
    for y.  The shift limit itself is left as it was. *)
Theorem smooth_transform_axes_independent
    (s : TS.t) (tx ty tz tx' ty' tz' : Q) :
  let r := TS.smooth_transform s tx ty tz in
  snd (fst r) = fst (ES.smooth (TS.zoom_smoother s) tz)
  /\ TS.zoom_smoother (snd r) = snd (ES.smooth (TS.zoom_smoother s) tz)
  /\ (fst (fst (fst r)) = fst (fst (fst (TS.smooth_transform s tx ty' tz'))))
  /\ TS.x_smoother (snd r) = TS.x_smoother (snd (TS.smooth_transform s tx ty' tz'))
  /\ (snd (fst (fst r)) = snd (fst (fst (TS.smooth_transform s tx' ty tz'))))
  /\ TS.y_smoother (snd r) = TS.y_smoother (snd (TS.smooth_transform s tx' ty tz'))
  /\ TS.max_shift_per_frame (snd r) = TS.max_shift_per_frame s.
Proof.
  cbv zeta. unfold TS.smooth_transform.
  destruct (ES.smooth (TS.x_smoother s) tx) as [vx xs].
  destruct (ES.smooth (TS.y_smoother s) ty) as [vy ys].
  destruct (ES.smooth (TS.zoom_smoother s) tz) as [vz zs].
  destruct (ES.smooth (TS.x_smoother s) tx') as [vx' xs'].
  destruct (ES.smooth (TS.y_smoother s) ty') as [vy' ys'].
  destruct (ES.smooth (TS.zoom_smoother s) tz') as [vz' zs'].
  destruct (ES.smoothed_value xs) as [px |];
    destruct (ES.smoothed_value ys) as [py |];
    destruct (ES.smoothed_value xs') as [px' |];
    destruct (ES.smoothed_value ys') as [py' |];
    repeat match goal with
           | |- context [if ?b then _ else _] => destruct b
           end;
    cbn; repeat split.
Qed.

(** X5.  A negative shift limit turns the limiter into a drift: every call
    then returns, and stores as the new history, the filter's value plus the
    magnitude of the limit, on x and on y. *)
Theorem negative_limit_drifts (s : TS.t) (tx ty tz : Q)
    (Hneg : (TS.max_shift_per_frame s < 0)%Z) :
  let r := TS.smooth_transform s tx ty tz in
  let shift := - inject_Z (TS.max_shift_per_frame s) in
  0 < shift
  /\ fst (fst (fst r)) = fst (ES.smooth (TS.x_smoother s) tx) + shift
  /\ snd (fst (fst r)) = fst (ES.smooth (TS.y_smoother s) ty) + shift
  /\ ES.smoothed_value (TS.x_smoother (snd r)) = Some (fst (fst (fst r)))
  /\ ES.smoothed_value (TS.y_smoother (snd r)) = Some (snd (fst (fst r))).
Proof.
  cbv zeta.
  assert (Hl : inject_Z (TS.max_shift_per_frame s) < 0).
  { change 0 with (inject_Z 0). rewrite <- Zlt_Qlt. exact Hneg. }
  assert (Hfire : forall v,
             Qltb (inject_Z (TS.max_shift_per_frame s)) (Qabs (v - v)) = true).
  { intro v. apply Qltb_true_iff.
    pose proof (Qabs_nonneg (v - v)). lra. }
  assert (Hdir : forall v, Qltb 0 (v - v) = false).
  { intro v. apply Qltb_false_iff. lra. }
  split; [lra |].
  unfold TS.smooth_transform.
  pose proof (ES_smooth_stores (TS.x_smoother s) tx) as Hx.
  pose proof (ES_smooth_stores (TS.y_smoother s) ty) as Hy.
  destruct (ES.smooth (TS.x_smoother s) tx) as [vx xs].
  destruct (ES.smooth (TS.y_smoother s) ty) as [vy ys].
  destruct (ES.smooth (TS.zoom_smoother s) tz) as [vz zs].
  cbn [fst snd] in *. rewrite Hx, Hy, !Hfire, !Hdir.
  cbn. repeat split.
Qed.

Lemma negative_limit_drifts_witness :
  fst (fst (fst (TS.smooth_transform (TS.init (1 # 2) (-5)) 100 50 1)))
  == 105.
Proof.
  assert (H : (TS.max_shift_per_frame (TS.init (1 # 2) (-5)) < 0)%Z)
    by reflexivity.
  destruct (negative_limit_drifts (TS.init (1 # 2) (-5)) 100 50 1 H)
    as (_ & Hx & _).
  rewrite Hx. reflexivity.
Defined.

(** X6.  After [reset], whatever the history, the next [smooth_transform]
    returns its three targets exactly (for a shift limit that is not
    negative); [reset] keeps the smoothing factors and the limit, and doing
    it twice is doing it once. *)
Theorem reset_then_targets_exact (s : TS.t) (tx ty tz : Q)
    (Hm : (0 <= TS.max_shift_per_frame s)%Z) :
  fst (TS.smooth_transform (TS.reset s) tx ty tz) = (tx, ty, tz)
  /\ TS.reset (TS.reset s) = TS.reset s
  /\ ES.alpha (TS.x_smoother (TS.reset s)) = ES.alpha (TS.x_smoother s)
  /\ ES.alpha (TS.y_smoother (TS.reset s)) = ES.alpha (TS.y_smoother s)
  /\ ES.alpha (TS.zoom_smoother (TS.reset s)) = ES.alpha (TS.zoom_smoother s)
  /\ TS.max_shift_per_frame (TS.reset s) = TS.max_shift_per_frame s.
Proof.
  split; [| repeat split].
  rewrite smooth_transform_unlimited by exact Hm. reflexivity.
Qed.

Lemma reset_then_targets_exact_witness :
  let s := snd (TS.smooth_transform (TS.init (15 # 100) 50) 640 360 2) in
  fst (TS.smooth_transform (TS.reset s) 10 20 3) = (10, 20, 3).
Proof.
  intro s.
  refine (proj1 (reset_then_targets_exact s 10 20 3 _)).
  discriminate.
Defined.

(** ** tracking_state.py *)

Lemma track_inv (s : TrackingState.t) (c : TrackerCall) :
  tracker_inv s -> tracker_inv (track s c).
Proof.
  intros [Hiff Hst]. destruct c as [[d |] t |]; cbn.
  - split; [split; discriminate | intros _; discriminate].
  - destruct (TrackingState.last_detection_time s) as [t0 |] eqn:E; cbn.
    + split; cbn.
      * exact Hiff.
      * intros _ Hn. apply Hiff in Hn. discriminate Hn.
    + split; cbn.
      * exact Hiff.
      * intro H. exfalso. apply H. reflexivity.
  - split; [split; reflexivity | intro H; exfalso; apply H; reflexivity].
Qed.

Lemma tracks_inv (cs : list TrackerCall) :
  forall s : TrackingState.t, tracker_inv s -> tracker_inv (tracks s cs).
Proof.
  induction cs as [| c cs IH]; intros s H.
  - exact H.
  - apply (IH (track s c)), track_inv, H.
Qed.

Lemma tracks_memory_duration (cs : list TrackerCall) :
  forall s : TrackingState.t,
    TrackingState.memory_duration (tracks s cs)
    = TrackingState.memory_duration s.
Proof.
  induction cs as [| c cs IH]; intro s.
  - reflexivity.
  - change (tracks s (c :: cs)) with (tracks (track s c) cs).
    rewrite IH. destruct c as [[d |] t |]; cbn; try reflexivity.
    destruct (TrackingState.last_detection_time s); reflexivity.
Qed.

(** X7.  For a tracker built by its constructor and any sequence of [update]
    and [reset] calls: [get_target_bbox] returns nothing exactly when the
    status is [LOST_LONG], so a status of [TRACKING] or [LOST_RECENT] always
    comes with a bbox; a bbox is stored exactly when a detection time is;
    and the memory duration is the constructor's. *)
Theorem tracker_target_iff_not_lost_long (md : Q) (cs : list TrackerCall) :
  let s := tracks (TrackingState.init md) cs in
  (TrackingState.get_target_bbox s = None
   <-> TrackingState.status s = LOST_LONG)
  /\ (TrackingState.last_bbox s = None
      <-> TrackingState.last_detection_time s = None)
  /\ TrackingState.memory_duration s = md.
Proof.
  intro s.
  assert (Hinv : tracker_inv s).
  { apply tracks_inv. split; [split; reflexivity |].
    intro H. exfalso. apply H. reflexivity. }
  destruct Hinv as [Hiff Hst].
  split; [| split; [exact Hiff | apply tracks_memory_duration]].
  unfold TrackingState.get_target_bbox.
  destruct (TrackingState.status s) eqn:E.
  - split; [intro H; exfalso; apply Hst; [discriminate | exact H]
           | discriminate].
  - split; [intro H; exfalso; apply Hst; [discriminate | exact H]
           | discriminate].
  - split; reflexivity.
Qed.

(** X8.  With a clock that does not run backwards, [LOST_LONG] is stable:
    once an update without detection has answered [LOST_LONG], a later one
    answers [LOST_LONG] as well and exposes no bbox.  Only a detection leaves
    the state. *)
Theorem lost_long_stable (s : TrackingState.t) (t1 t2 : Q)
    (Hclock : t1 <= t2)
    (Hlost : fst (TrackingState.update s None t1) = LOST_LONG) :
  let r := TrackingState.update (snd (TrackingState.update s None t1)) None t2 in
  fst r = LOST_LONG /\ TrackingState.get_target_bbox (snd r) = None.
Proof.
  cbv zeta. revert Hlost.
  unfold TrackingState.update, TrackingState.get_target_bbox.
  destruct (TrackingState.last_detection_time s) as [t0 |] eqn:E;
    cbn; rewrite ?E; cbn; [| intros _; split; reflexivity].
  case_Qltb (t1 - t0) (TrackingState.memory_duration s);
    [discriminate |].
  intros _.
  assert (E2 : Qltb (t2 - t0) (TrackingState.memory_duration s) = false)
    by (apply Qltb_false_iff; lra).
  rewrite E2. split; reflexivity.
Qed.

Lemma lost_long_stable_witness :
  let d := mkFaceDetection (10, 10, 50, 50)%Z 1 (35, 35)%Z in
  let s := snd (TrackingState.update (TrackingState.init 2) (Some d) 0) in
  fst (TrackingState.update (snd (TrackingState.update s None 3)) None 4)
  = LOST_LONG.
Proof.
  intros d s.
  refine (proj1 (lost_long_stable s 3 4 _ _)).
  - discriminate.
  - reflexivity.
Defined.

(** ** frame_processor.py *)

Lemma clamp_floor (lo hi v : Q) : lo <= py_max lo (py_min hi v).
Proof.
  unfold py_max. case_Qltb lo (py_min hi v); lra.
Qed.

Lemma clamp_inverted (lo hi v : Q) :
  hi < lo -> py_max lo (py_min hi v) = lo.
Proof.
  intro H. unfold py_max, py_min.
  case_Qltb v hi.
  - case_Qltb lo v; [lra | reflexivity].
  - case_Qltb lo hi; [lra | reflexivity].
Qed.

Lemma clamp_monotone (lo hi v v' : Q) :
  v <= v' -> py_max lo (py_min hi v) <= py_max lo (py_min hi v').
Proof.
  intro H. unfold py_max, py_min.
  case_Qltb v hi; case_Qltb v' hi;
    repeat match goal with
           | |- context [Qltb ?a ?b] => case_Qltb a b
           end; lra.
Qed.

Lemma calculate_zoom_positive_height (fp : FP.t) (h fh : Z) :
  (0 < h)%Z -> (0 < fh)%Z ->
  FP._calculate_zoom fp h fh
  = Returned (py_max (PC.min_zoom (FP.config fp))
                (py_min (PC.max_zoom (FP.config fp))
                   (PC.target_face_ratio (FP.config fp)
                    / (inject_Z h / inject_Z fh)))).
Proof.
  intros Hh Hfh. pose proof (ratio_pos h fh Hh Hfh) as Hr.
  unfold FP._calculate_zoom.
  destruct (Z.leb_spec h 0) as [Hc | _]; [lia |].
  destruct (Z.eqb_spec fh 0) as [Hc | _]; [lia |].
  destruct (Qeq_bool (inject_Z h / inject_Z fh) 0) eqn:E.
  - apply Qeq_bool_iff in E. lra.
  - reflexivity.
Qed.

Lemma calculate_zoom_returns (fp : FP.t) (h fh : Z) :
  (0 < fh)%Z ->
  exists z,
    FP._calculate_zoom fp h fh = Returned z
    /\ PC.min_zoom (FP.config fp) <= z
    /\ (PC.min_zoom (FP.config fp) <= PC.max_zoom (FP.config fp) ->
        z <= PC.max_zoom (FP.config fp))
    /\ (PC.max_zoom (FP.config fp) < PC.min_zoom (FP.config fp) ->
        z = PC.min_zoom (FP.config fp)).
Proof.
  intro Hfh. destruct (Z.lt_ge_cases 0 h) as [Hh | Hh].
  - eexists. split; [apply calculate_zoom_positive_height; assumption |].
    split; [apply clamp_floor | split].
    + intro Hb. apply clamp_between, Hb.
    + apply clamp_inverted.
  - exists (PC.min_zoom (FP.config fp)). split.
    + unfold FP._calculate_zoom.
      destruct (Z.leb_spec h 0) as [_ | Hc]; [reflexivity | lia].
    + split; [lra | split; [intro; assumption | reflexivity]].
Qed.

(** X9.  For a frame of positive height [_calculate_zoom] always returns: the
    zoom is never below [min_zoom], whatever the face height and the other
    settings, and a configuration whose [max_zoom] lies below its [min_zoom]
    pins the zoom to [min_zoom]. *)
Theorem calculate_zoom_floor (fp : FP.t) (h fh : Z) (Hfh : (0 < fh)%Z) :
  exists z,
    FP._calculate_zoom fp h fh = Returned z
    /\ PC.min_zoom (FP.config fp) <= z
    /\ (PC.max_zoom (FP.config fp) < PC.min_zoom (FP.config fp) ->
        z = PC.min_zoom (FP.config fp)).
Proof.
  destruct (calculate_zoom_returns fp h fh Hfh) as (z & Hz & Hlo & _ & Hinv).
  exists z. split; [exact Hz | split; [exact Hlo | exact Hinv]].
Qed.

Lemma calculate_zoom_floor_witness :
  exists z,
    FP._calculate_zoom (FP.init (PC.mk (4 # 10) 2 1 (15 # 100) 50)) 100 720
    = Returned z
    /\ z = 2.
Proof.
  assert (Hfh : (0 < 720)%Z) by reflexivity.
  destruct (calculate_zoom_floor
              (FP.init (PC.mk (4 # 10) 2 1 (15 # 100) 50)) 100 720 Hfh)
    as (z & Hz & _ & Hpin).
  exists z. split; [exact Hz |]. apply Hpin. reflexivity.
Defined.

(** X10.  A larger face never gets a larger zoom: for a frame of positive
    height, a target face ratio that is not negative and face heights
    [0 < h1 <= h2], the zoom computed for [h2] is at most the zoom computed
    for [h1]. *)
Theorem calculate_zoom_antitone (fp : FP.t) (h1 h2 fh : Z)
    (Hfh : (0 < fh)%Z) (Hh1 : (0 < h1)%Z) (Hh : (h1 <= h2)%Z)
    (Ht : 0 <= PC.target_face_ratio (FP.config fp)) :
  exists z1 z2,
    FP._calculate_zoom fp h1 fh = Returned z1
    /\ FP._calculate_zoom fp h2 fh = Returned z2
    /\ z2 <= z1.
Proof.
  assert (Hh2 : (0 < h2)%Z) by lia.
  do 2 eexists.
  split; [apply calculate_zoom_positive_height; assumption |].
  split; [apply calculate_zoom_positive_height; assumption |].
  apply clamp_monotone.
  pose proof (ratio_pos h1 fh Hh1 Hfh) as Hr1.
  pose proof (ratio_pos h2 fh Hh2 Hfh) as Hr2.
  set (r1 := inject_Z h1 / inject_Z fh) in *.
  set (r2 := inject_Z h2 / inject_Z fh) in *.
  set (t := PC.target_face_ratio (FP.config fp)) in *.
  assert (Hr : r1 <= r2).
  { unfold r1, r2, Qdiv. apply Qmult_le_compat_r.
    - rewrite <- Zle_Qle. exact Hh.
    - apply Qinv_le_0_compat, Qlt_le_weak, inject_Z_pos, Hfh. }
  assert (Ha : 0 <= t / r2).
  { unfold Qdiv. apply Qmult_le_0_compat; [exact Ht |].
    apply Qinv_le_0_compat. lra. }
  apply Qle_shift_div_l; [exact Hr1 |].
  assert (Hmul : t / r2 * r2 == t) by (field; lra).
  assert (0 <= t / r2 * (r2 - r1)) by (apply Qmult_le_0_compat; lra).
  lra.
Qed.

Lemma calculate_zoom_antitone_witness :
  exists z1 z2,
    FP._calculate_zoom (FP.init (PC.mk (4 # 10) 1 3 (15 # 100) 50)) 120 720
    = Returned z1
    /\ FP._calculate_zoom (FP.init (PC.mk (4 # 10) 1 3 (15 # 100) 50)) 200 720
       = Returned z2
    /\ z2 <= z1.
Proof.
  apply calculate_zoom_antitone; try reflexivity; discriminate.
Defined.

Lemma py_int_of_nonneg (q : Q) (n : Z) :
  0 <= q -> q <= inject_Z n -> (0 <= py_int q <= n)%Z.
Proof.
  intros H0 Hn. unfold py_int.
  assert (Hnum : (0 <= Qnum q)%Z).
  { unfold Qle in H0. cbn in H0. lia. }
  rewrite Z.quot_div_nonneg by lia.
  assert (Hfl : (Qnum q / Z.pos (Qden q))%Z = Qfloor q)
    by (destruct q; reflexivity).
  rewrite Hfl.
  split.
  - change 0%Z with (Qfloor 0). apply Qfloor_resp_le, H0.
  - rewrite <- (Qfloor_Z n). apply Qfloor_resp_le, Hn.
Qed.

Lemma py_int_of_integer (q : Q) (n : Z) : q == inject_Z n -> py_int q = n.
Proof.
  unfold Qeq, py_int. cbn. intro H.
  rewrite Z.mul_1_r in H. rewrite H. apply Z.quot_mul. discriminate.
Qed.

Lemma scaled_dimension (n : Z) (zoom : Q) :
  (0 <= n)%Z -> 1 <= zoom ->
  (0 <= py_int (inject_Z n / zoom) <= n)%Z.
Proof.
  intros Hn Hz.
  assert (Hq : 0 <= inject_Z n)
    by (change 0 with (inject_Z 0); rewrite <- Zle_Qle; exact Hn).
  apply py_int_of_nonneg.
  - apply Qle_shift_div_l; lra.
  - apply Qle_shift_div_r; [lra |].
    assert (0 <= inject_Z n * (zoom - 1)) by (apply Qmult_le_0_compat; lra).
    lra.
Qed.

Lemma py_slice_inside {A : Type} (l : list A) (lo hi : Z) :
  (0 <= lo)%Z -> (lo <= hi)%Z -> (hi <= Z.of_nat (length l))%Z ->
  py_slice l lo hi = firstn (Z.to_nat (hi - lo)) (skipn (Z.to_nat lo) l)
  /\ Z.of_nat (length (py_slice l lo hi)) = (hi - lo)%Z.
Proof.
  intros H0 Hle Hhi. unfold py_slice, slice_index.
  destruct (Z.ltb_spec lo 0) as [Hc | _]; [lia |].
  destruct (Z.ltb_spec hi 0) as [Hc | _]; [lia |].
  rewrite (Z.min_l lo) by lia. rewrite (Z.min_l hi) by lia.
  replace (Z.to_nat hi - Z.to_nat lo)%nat with (Z.to_nat (hi - lo)) by lia.
  split; [reflexivity |].
  rewrite length_firstn, length_skipn. lia.
Qed.

Lemma py_slice_whole {A : Type} (l : list A) :
  py_slice l 0 (Z.of_nat (length l)) = l.
Proof.
  destruct (py_slice_inside l 0 (Z.of_nat (length l))) as [H _]; try lia.
  rewrite H. cbn [Z.to_nat skipn]. rewrite Z.sub_0_r, Nat2Z.id.
  apply firstn_all.
Qed.

Lemma Forall_skipn {A : Type} (P : A -> Prop) (n : nat) :
  forall l : list A, Forall P l -> Forall P (skipn n l).
Proof.
  induction n as [| n IH]; intros l H; [exact H |].
  destruct l as [| a l]; [constructor |].
  cbn. apply IH. inversion H; assumption.
Qed.

Lemma Forall_firstn {A : Type} (P : A -> Prop) (n : nat) :
  forall l : list A, Forall P l -> Forall P (firstn n l).
Proof.
  induction n as [| n IH]; intros l H; [constructor |].
  destruct l as [| a l]; [constructor |].
  cbn. inversion H; subst. constructor; [assumption | apply IH; assumption].
Qed.

Lemma shape_height (f : Frame) : fst (shape f) = Z.of_nat (length f).
Proof. reflexivity. Qed.

Lemma shape_width_nonneg (f : Frame) : (0 <= snd (shape f))%Z.
Proof. destruct f; cbn; lia. Qed.

Lemma crop_dimensions (f : Frame) (y1 y2 x1 x2 : Z) :
  rectangular f ->
  (0 <= y1 <= y2)%Z -> (y2 <= fst (shape f))%Z ->
  (0 <= x1 <= x2)%Z -> (x2 <= snd (shape f))%Z ->
  Z.of_nat (length (crop f y1 y2 x1 x2)) = (y2 - y1)%Z
  /\ Forall (fun row => Z.of_nat (length row) = (x2 - x1)%Z)
       (crop f y1 y2 x1 x2).
Proof.
  intros Hrect Hy Hy2 Hx Hx2. unfold crop.
  rewrite shape_height in Hy2.
  destruct (py_slice_inside f y1 y2) as [Hrows Hlen]; try lia.
  split.
  - rewrite length_map. exact Hlen.
  - apply Forall_map. rewrite Hrows.
    assert (Hsub : Forall (fun row => Z.of_nat (length row) = snd (shape f))
                     (firstn (Z.to_nat (y2 - y1)) (skipn (Z.to_nat y1) f))).
    { apply Forall_firstn, Forall_skipn, Hrect. }
    revert Hsub. apply Forall_impl. intros row Hw.
    apply (py_slice_inside row x1 x2); lia.
Qed.

(** X11.  For a rectangular frame and a zoom of at least 1,
    [_apply_transform] raises nothing of its own and hands [cv2.resize] a
    region that lies inside the frame: its left and top edges are not
    negative, its right and bottom edges do not pass the frame's, and it has
    exactly [int(height / zoom)] rows of [int(width / zoom)] pixels, wherever
    the requested centre is. *)
Theorem apply_transform_crops_inside
    (cv2_resize : Frame -> Z -> Z -> Outcome Frame)
    (f : Frame) (center_x center_y : Z) (zoom : Q)
    (Hrect : rectangular f) (Hzoom : 1 <= zoom) :
  let height := fst (shape f) in
  let width := snd (shape f) in
  let new_width := py_int (inject_Z width / zoom) in
  let new_height := py_int (inject_Z height / zoom) in
  exists x1 y1 : Z,
    (0 <= x1 /\ x1 + new_width <= width)%Z
    /\ (0 <= y1 /\ y1 + new_height <= height)%Z
    /\ FP._apply_transform cv2_resize f center_x center_y zoom
       = cv2_resize (crop f y1 (y1 + new_height) x1 (x1 + new_width))
           width height
    /\ Z.of_nat (length (crop f y1 (y1 + new_height) x1 (x1 + new_width)))
       = new_height
    /\ Forall (fun row => Z.of_nat (length row) = new_width)
         (crop f y1 (y1 + new_height) x1 (x1 + new_width)).
Proof.
  intros height width new_width new_height.
  assert (Hh : (0 <= height)%Z) by (unfold height; rewrite shape_height; lia).
  assert (Hw : (0 <= width)%Z) by apply shape_width_nonneg.
  pose proof (scaled_dimension width zoom Hw Hzoom) as Hnw.
  pose proof (scaled_dimension height zoom Hh Hzoom) as Hnh.
  fold new_width in Hnw. fold new_height in Hnh.
  exists (Z.max 0 (Z.min (center_x - new_width / 2) (width - new_width))).
  exists (Z.max 0 (Z.min (center_y - new_height / 2) (height - new_height))).
  set (x1 := Z.max 0 (Z.min (center_x - new_width / 2) (width - new_width))).
  set (y1 := Z.max 0 (Z.min (center_y - new_height / 2) (height - new_height))).
  assert (Hx1 : (0 <= x1 /\ x1 + new_width <= width)%Z) by (unfold x1; lia).
  assert (Hy1 : (0 <= y1 /\ y1 + new_height <= height)%Z) by (unfold y1; lia).
  split; [exact Hx1 | split; [exact Hy1 | split]].
  - unfold FP._apply_transform.
    assert (Hs : shape f = (height, width)) by (destruct (shape f); reflexivity).
    rewrite Hs.
    destruct (Qeq_bool zoom 0) eqn:E; [| reflexivity].
    apply Qeq_bool_iff in E. lra.
  - destruct (crop_dimensions f y1 (y1 + new_height) x1 (x1 + new_width))
      as [Hrows Hcols]; try assumption; try (fold height; lia);
      try (fold width; lia).
    split.
    + rewrite Hrows. lia.
    + revert Hcols. apply Forall_impl. intros row Hr. rewrite Hr. lia.
Qed.

Lemma apply_transform_crops_inside_witness :
  let px : Pixel := (Byte.x00, Byte.x00, Byte.x00) in
  let f : Frame := [[px; px; px; px]; [px; px; px; px]] in
  exists x1 y1 : Z,
    (0 <= x1 /\ x1 + 2 <= 4)%Z /\ (0 <= y1 /\ y1 + 1 <= 2)%Z
    /\ FP._apply_transform (fun roi _ _ => Returned roi) f 100 100 2
       = Returned (crop f y1 (y1 + 1) x1 (x1 + 2)).
Proof.
  intros px f.
  assert (Hrect : rectangular f) by (repeat constructor).
  assert (Hz : 1 <= 2) by discriminate.
  destruct (apply_transform_crops_inside (fun roi _ _ => Returned roi)
              f 100 100 2 Hrect Hz) as (x1 & y1 & Hx & Hy & Heq & _).
  exists x1, y1. split; [exact Hx | split; [exact Hy | exact Heq]].
Defined.

(** X12.  At a zoom of 1 nothing is cropped: for a rectangular frame
    [_apply_transform] passes the entire frame to [cv2.resize] with the
    frame's own dimensions, whatever centre is requested. *)
Theorem apply_transform_zoom_one_whole_frame
    (cv2_resize : Frame -> Z -> Z -> Outcome Frame)
    (f : Frame) (center_x center_y : Z) (zoom : Q)
    (Hrect : rectangular f) (Hzoom : zoom == 1) :
  FP._apply_transform cv2_resize f center_x center_y zoom
  = cv2_resize f (snd (shape f)) (fst (shape f)).
Proof.
  unfold FP._apply_transform.
  assert (Hs : shape f = (fst (shape f), snd (shape f)))
    by (destruct (shape f); reflexivity).
  rewrite Hs at 1.
  destruct (Qeq_bool zoom 0) eqn:E;
    [apply Qeq_bool_iff in E; rewrite Hzoom in E; discriminate E |].
  assert (Hd : forall n : Z, py_int (inject_Z n / zoom) = n).
  { intro n. apply py_int_of_integer. rewrite Hzoom. field. }
  rewrite !Hd.
  pose proof (shape_width_nonneg f) as Hw.
  set (width := snd (shape f)) in *. set (height := fst (shape f)) in *.
  assert (Hh : (0 <= height)%Z) by (unfold height; rewrite shape_height; lia).
  rewrite !Z.sub_diag.
  replace (Z.max 0 (Z.min (center_x - width / 2) 0)) with 0%Z by lia.
  replace (Z.max 0 (Z.min (center_y - height / 2) 0)) with 0%Z by lia.
  rewrite !Z.add_0_l. f_equal.
  unfold crop. unfold height. rewrite shape_height, py_slice_whole.
  rewrite <- (map_id f) at 2. apply map_ext_Forall.
  revert Hrect. apply Forall_impl. intros row Hr.
  fold width in Hr. rewrite <- Hr. apply py_slice_whole.
Qed.

Lemma apply_transform_zoom_one_whole_frame_witness :
  let px : Pixel := (Byte.x01, Byte.x02, Byte.x03) in
  let f : Frame := [[px; px]; [px; px]] in
  FP._apply_transform (fun roi _ _ => Returned roi) f 0 7 1 = Returned f.
Proof.
  intros px f.
  apply (apply_transform_zoom_one_whole_frame (fun roi _ _ => Returned roi)
           f 0 7 1).
  - repeat constructor.
  - reflexivity.
Defined.

Lemma process_empty_frame_guard
    (cv2_resize : Frame -> Z -> Z -> Outcome Frame)
    (fp : FP.t) (f : Frame) (target_bbox : option BBox) :
  size f = 0%Z ->
  FP.process cv2_resize fp (Some f) target_bbox = (Returned (Some f), fp).
Proof.
  intro Hsz. unfold FP.process. rewrite Hsz. reflexivity.
Qed.

Lemma process_no_target_state
    (cv2_resize : Frame -> Z -> Z -> Outcome Frame)
    (fp : FP.t) (frame : option Frame) :
  fst (FP.process cv2_resize fp frame None) = Returned frame
  /\ FP.smoother (snd (FP.process cv2_resize fp frame None)) = FP.smoother fp
  /\ FP.config (snd (FP.process cv2_resize fp frame None)) = FP.config fp.
Proof.
  unfold FP.process.
  destruct frame as [f |]; [| repeat split].
  destruct (size f =? 0)%Z; [repeat split |].
  destruct (shape f) as [height width].
  destruct (FP.frame_center fp); repeat split.
Qed.

Lemma smooth_transform_zoom (s : TS.t) (tx ty tz : Q) :
  snd (fst (TS.smooth_transform s tx ty tz))
  = fst (ES.smooth (TS.zoom_smoother s) tz)
  /\ TS.zoom_smoother (snd (TS.smooth_transform s tx ty tz))
     = snd (ES.smooth (TS.zoom_smoother s) tz).
Proof.
  unfold TS.smooth_transform.
  destruct (ES.smooth (TS.x_smoother s) tx) as [vx xs].
  destruct (ES.smooth (TS.y_smoother s) ty) as [vy ys].
  destruct (ES.smooth (TS.zoom_smoother s) tz) as [vz zs].
  destruct (ES.smoothed_value xs); destruct (ES.smoothed_value ys);
    repeat match goal with
           | |- context [if ?b then _ else _] => destruct b
           end;
    split; reflexivity.
Qed.

(** [process] on a frame that is not empty, with a target: the zoom is
    computed, the smoother advanced, and the outcome is the transform's. *)
Lemma process_with_target
    (cv2_resize : Frame -> Z -> Z -> Outcome Frame)
    (fp : FP.t) (f : Frame) (x y w h : Z) :
  size f <> 0%Z ->
  exists z,
    FP._calculate_zoom fp h (fst (shape f)) = Returned z
    /\ let r := TS.smooth_transform (FP.smoother fp)
                  (inject_Z (x + w / 2)) (inject_Z (y + h / 2)) z in
       let fp' :=
         FP.mk (FP.config fp) (snd r)
           (match FP.frame_center fp with
            | None => Some ((snd (shape f) / 2)%Z, (fst (shape f) / 2)%Z)
            | Some c => Some c
            end) in
       FP.process cv2_resize fp (Some f) (Some (x, y, w, h))
       = match FP._apply_transform cv2_resize f
                 (py_int (fst (fst (fst r)))) (py_int (snd (fst (fst r))))
                 (snd (fst r)) with
         | Raised e => (Raised e, fp')
         | Returned t => (Returned (Some t), fp')
         end.
Proof.
  intro Hsz.
  pose proof (nonempty_frame_height_pos f Hsz) as Hpos.
  destruct (calculate_zoom_returns fp h (fst (shape f)) Hpos)
    as (z & Hz & _).
  exists z. split; [exact Hz |].
  cbv zeta. unfold FP.process.
  destruct (Z.eqb_spec (size f) 0) as [Hc | _]; [contradiction |].
  destruct (shape f) as [height width] eqn:Hs. cbn [fst snd] in *.
  assert (Hz' : forall fc,
             FP._calculate_zoom (FP.mk (FP.config fp) (FP.smoother fp) fc)
               h height = Returned z) by (intro fc; exact Hz).
  destruct (FP.frame_center fp) as [c |] eqn:Hfc.
  - rewrite Hz.
    destruct (TS.smooth_transform (FP.smoother fp) (inject_Z (x + w / 2))
                (inject_Z (y + h / 2)) z) as [[[sx sy] sz] sm].
    cbn [fst snd FP.config FP.frame_center]. rewrite Hfc. reflexivity.
  - rewrite (Hz' (Some ((width / 2)%Z, (height / 2)%Z))).
    cbn [FP.smoother FP.config FP.frame_center].
    destruct (TS.smooth_transform (FP.smoother fp) (inject_Z (x + w / 2))
                (inject_Z (y + h / 2)) z) as [[[sx sy] sz] sm].
    reflexivity.
Qed.

Lemma smooth_keeps_positive (s : ES.t) (v : Q) :
  0 <= ES.alpha s <= 1 ->
  match ES.smoothed_value s with Some p => 0 < p | None => True end ->
  0 < v ->
  0 < fst (ES.smooth s v).
Proof.
  intros [H0 H1] Hp Hv. unfold ES.smooth.
  destruct (ES.smoothed_value s) as [p |]; cbn [fst]; [| exact Hv].
  assert (0 <= ES.alpha s * v) by (apply Qmult_le_0_compat; lra).
  assert (0 <= (1 - ES.alpha s) * p) by (apply Qmult_le_0_compat; lra).
  destruct (Qlt_le_dec 0 (ES.alpha s)) as [Hpos | Hzero].
  - assert (0 < ES.alpha s * v) by (apply Qmult_lt_0_compat; assumption).
    lra.
  - assert (Ha : ES.alpha s == 0) by lra.
    rewrite Ha. lra.
Qed.

Lemma apply_transform_raises_from_resize
    (cv2_resize : Frame -> Z -> Z -> Outcome Frame)
    (f : Frame) (cx cy : Z) (zoom : Q) (e : string) :
  0 < zoom ->
  FP._apply_transform cv2_resize f cx cy zoom = Raised e ->
  exists roi w h, cv2_resize roi w h = Raised e.
Proof.
  intros Hz. unfold FP._apply_transform.
  destruct (shape f) as [height width].
  destruct (Qeq_bool zoom 0) eqn:E.
  - apply Qeq_bool_iff in E. lra.
  - intro H. eauto.
Qed.

(** X13.  A processor with a positive [min_zoom], a zoom factor within [0,1]
    and a positive zoom history keeps all three through [process], for every
    frame and target; and when such a call raises, the exception is one that
    [cv2.resize] raised: [process] itself never divides by zero. *)
Theorem process_raises_only_from_resize
    (cv2_resize : Frame -> Z -> Z -> Outcome Frame)
    (fp : FP.t) (frame : option Frame) (target_bbox : option BBox)
    (Hinv : zoom_positive fp) :
  let r := FP.process cv2_resize fp frame target_bbox in
  zoom_positive (snd r)
  /\ FP.config (snd r) = FP.config fp
  /\ (forall e, fst r = Raised e ->
      exists roi w h, cv2_resize roi w h = Raised e).
Proof.
  cbv zeta.
  destruct frame as [f |];
    [| split; [exact Hinv | split; [reflexivity | discriminate]]].
  destruct (Z.eq_dec (size f) 0) as [Hsz | Hsz].
  { rewrite (process_empty_frame_guard cv2_resize fp f target_bbox Hsz).
    split; [exact Hinv | split; [reflexivity | discriminate]]. }
  destruct target_bbox as [[[[x y] w] h] |].
  - destruct (process_with_target cv2_resize fp f x y w h Hsz)
      as (z & Hz & Hproc).
    cbv zeta in Hproc.
    change (@Some BBox (x, y, w, h))
      with (@Some (Z * Z * Z * Z)%type (x, y, w, h)).
    rewrite Hproc. clear Hproc.
    destruct Hinv as (Hmin & Ha & Hhist).
    destruct (calculate_zoom_returns fp h (fst (shape f))
                (nonempty_frame_height_pos f Hsz)) as (z' & Hz' & Hlo & _).
    rewrite Hz in Hz'. injection Hz' as <-.
    assert (Hzpos : 0 < z) by lra.
    destruct (smooth_transform_zoom (FP.smoother fp)
                (inject_Z (x + w / 2)) (inject_Z (y + h / 2)) z)
      as [Hout Hst].
    pose proof (smooth_keeps_positive _ z Ha Hhist Hzpos) as Hpos.
    set (r := TS.smooth_transform (FP.smoother fp)
                (inject_Z (x + w / 2)) (inject_Z (y + h / 2)) z) in *.
    assert (Hinv' : forall fc, zoom_positive (FP.mk (FP.config fp) (snd r) fc)).
    { intro fc. unfold zoom_positive. cbn [FP.config FP.smoother].
      rewrite Hst, ES_smooth_alpha, ES_smooth_stores.
      split; [exact Hmin | split; [exact Ha | exact Hpos]]. }
    destruct (FP._apply_transform cv2_resize f (py_int (fst (fst (fst r))))
                (py_int (snd (fst (fst r)))) (snd (fst r))) as [t | e0] eqn:Et;
      cbn [fst snd].
    + split; [apply Hinv' | split; [reflexivity | discriminate]].
    + split; [apply Hinv' | split; [reflexivity |]].
      intros e He. injection He as <-.
      apply (apply_transform_raises_from_resize cv2_resize f _ _ _ e0)
        in Et; [exact Et |].
      rewrite Hout. exact Hpos.
  - pose proof (process_no_target_state cv2_resize fp (Some f)) as (Ho & Hs & Hc).
    split; [| split; [exact Hc | rewrite Ho; discriminate]].
    destruct Hinv as (Hmin & Ha & Hhist).
    unfold zoom_positive. rewrite Hs, Hc.
    split; [exact Hmin | split; [exact Ha | exact Hhist]].
Qed.

Lemma process_raises_only_from_resize_witness :
  let fp := FP.init (PC.mk (4 # 10) 1 3 (15 # 100) 50) in
  let px : Pixel := (Byte.x00, Byte.x00, Byte.x00) in
  let f : Frame := [[px; px]; [px; px]] in
  zoom_positive
    (snd (FP.process (fun roi _ _ => Returned roi) fp (Some f)
            (Some (0, 0, 1, 1)%Z))).
Proof.
  intros fp px f.
  refine (proj1 (process_raises_only_from_resize (fun roi _ _ => Returned roi)
                   fp (Some f) (Some (0, 0, 1, 1)%Z) _)).
  split; [reflexivity | split; [split; discriminate | exact I]].
Defined.

(** X14.  The first frame has no smoothing transient: a freshly built
    processor (shift limit not negative) given a frame that is not empty and
    a target centres the transform exactly on the face centre
    [(x + w // 2, y + h // 2)] with exactly the zoom [_calculate_zoom]
    computes, and the outcome of [process] is the transform's. *)
Theorem process_first_frame_exact
    (cv2_resize : Frame -> Z -> Z -> Outcome Frame)
    (cfg : PC.t) (f : Frame) (x y w h : Z)
    (Hsz : size f <> 0%Z) (Hm : (0 <= PC.max_shift_per_frame cfg)%Z) :
  exists z,
    FP._calculate_zoom (FP.init cfg) h (fst (shape f)) = Returned z
    /\ fst (FP.process cv2_resize (FP.init cfg) (Some f) (Some (x, y, w, h)))
       = match FP._apply_transform cv2_resize f
                 (x + w / 2) (y + h / 2) z with
         | Raised e => Raised e
         | Returned t => Returned (Some t)
         end.
Proof.
  destruct (process_with_target cv2_resize (FP.init cfg) f x y w h Hsz)
    as (z & Hz & Hproc).
  exists z. split; [exact Hz |].
  cbv zeta in Hproc. rewrite Hproc. clear Hproc.
  rewrite smooth_transform_unlimited by exact Hm.
  cbn [fst snd FP.init FP.smoother TS.init TS.x_smoother TS.y_smoother
       TS.zoom_smoother ES.init ES.smooth ES.smoothed_value].
  rewrite !(py_int_of_integer (inject_Z _) _ (Qeq_refl _)).
  destruct (FP._apply_transform cv2_resize f (x + w / 2) (y + h / 2) z);
    reflexivity.
Qed.

Lemma process_first_frame_exact_witness :
  let px : Pixel := (Byte.x00, Byte.x00, Byte.x00) in
  let f : Frame := [[px; px]; [px; px]] in
  exists z,
    fst (FP.process (fun roi _ _ => Returned roi)
           (FP.init (PC.mk (4 # 10) 1 3 (15 # 100) 50)) (Some f)
           (Some (0, 0, 2, 1)%Z))
    = match FP._apply_transform (fun roi _ _ => Returned roi) f 1 0 z with
      | Raised e => Raised e
      | Returned t => Returned (Some t)
      end.
Proof.
  intros px f.
  destruct (process_first_frame_exact (fun roi _ _ => Returned roi)
              (PC.mk (4 # 10) 1 3 (15 # 100) 50) f 0 0 2 1)
    as (z & _ & H); [discriminate | discriminate |].
  exists z. exact H.
Defined.

(** ** controller.py *)

Lemma smooth_keeps_within (s : ES.t) (lo hi v : Q) :
  0 <= ES.alpha s <= 1 ->
  match ES.smoothed_value s with Some p => lo <= p <= hi | None => True end ->
  lo <= v <= hi ->
  lo <= fst (ES.smooth s v) <= hi.
Proof.
  intros [H0 H1] Hp [Hv0 Hv1]. unfold ES.smooth.
  destruct (ES.smoothed_value s) as [p |]; cbn [fst]; [| split; assumption].
  destruct Hp as [Hp0 Hp1].
  assert (0 <= ES.alpha s * (v - lo)) by (apply Qmult_le_0_compat; lra).
  assert (0 <= (1 - ES.alpha s) * (p - lo)) by (apply Qmult_le_0_compat; lra).
  assert (0 <= ES.alpha s * (hi - v)) by (apply Qmult_le_0_compat; lra).
  assert (0 <= (1 - ES.alpha s) * (hi - p)) by (apply Qmult_le_0_compat; lra).
  split; lra.
Qed.

Lemma smooth_transform_limit (s : TS.t) (tx ty tz : Q) :
  TS.max_shift_per_frame (snd (TS.smooth_transform s tx ty tz))
  = TS.max_shift_per_frame s.
Proof.
  unfold TS.smooth_transform.
  destruct (ES.smooth (TS.x_smoother s) tx) as [vx xs].
  destruct (ES.smooth (TS.y_smoother s) ty) as [vy ys].
  destruct (ES.smooth (TS.zoom_smoother s) tz) as [vz zs].
  destruct (ES.smoothed_value xs); destruct (ES.smoothed_value ys);
    repeat match goal with
           | |- context [if ?b then _ else _] => destruct b
           end;
    reflexivity.
Qed.

Lemma process_processor_inv
    (cv2_resize : Frame -> Z -> Z -> Outcome Frame)
    (fp : FP.t) (frame : option Frame) (target_bbox : option BBox) :
  processor_inv fp ->
  processor_inv (snd (FP.process cv2_resize fp frame target_bbox)).
Proof.
  intro Hinv.
  destruct frame as [f |]; [| exact Hinv].
  destruct (Z.eq_dec (size f) 0) as [Hsz | Hsz].
  { rewrite (process_empty_frame_guard cv2_resize fp f target_bbox Hsz).
    exact Hinv. }
  destruct target_bbox as [[[[x y] w] h] |].
  - destruct (process_with_target cv2_resize fp f x y w h Hsz)
      as (z & Hz & Hproc).
    cbv zeta in Hproc.
    change (@Some BBox (x, y, w, h))
      with (@Some (Z * Z * Z * Z)%type (x, y, w, h)).
    rewrite Hproc. clear Hproc.
    destruct Hinv as (Hmin & Hmax & Hshift & Hlimit & Ha & Hhist).
    destruct (calculate_zoom_returns fp h (fst (shape f))
                (nonempty_frame_height_pos f Hsz))
      as (z' & Hz' & Hlo & Hhi & _).
    rewrite Hz in Hz'. injection Hz' as <-.
    rewrite Hmin in Hlo.
    assert (Hzpos : 0 < z) by lra.
    destruct (smooth_transform_zoom (FP.smoother fp)
                (inject_Z (x + w / 2)) (inject_Z (y + h / 2)) z)
      as [_ Hst].
    pose proof (smooth_keeps_positive _ z Ha Hhist Hzpos) as Hin.
    pose proof (smooth_transform_limit (FP.smoother fp)
                  (inject_Z (x + w / 2)) (inject_Z (y + h / 2)) z) as Hlim.
    set (r := TS.smooth_transform (FP.smoother fp)
                (inject_Z (x + w / 2)) (inject_Z (y + h / 2)) z) in *.
    assert (Hinv' : forall fc, processor_inv (FP.mk (FP.config fp) (snd r) fc)).
    { intro fc. unfold processor_inv. cbn [FP.config FP.smoother].
      rewrite Hst, ES_smooth_alpha, ES_smooth_stores, Hlim.
      split; [exact Hmin | split; [exact Hmax | split; [exact Hshift |]]].
      split; [exact Hlimit | split; [exact Ha | exact Hin]]. }
    destruct (FP._apply_transform cv2_resize f (py_int (fst (fst (fst r))))
                (py_int (snd (fst (fst r)))) (snd (fst r)));
      apply Hinv'.
  - pose proof (process_no_target_state cv2_resize fp (Some f))
      as (_ & Hs & Hc).
    unfold processor_inv in *. rewrite Hs, Hc. exact Hinv.
Qed.

Lemma controller_processor_inv (fp : FP.t) (tfr sf : Q) :
  processor_inv fp ->
  processor_inv
    (FP.update_config fp
       (PC.mk tfr PC.default_min_zoom PC.default_max_zoom sf
          PC.default_max_shift_per_frame)).
Proof.
  intros (_ & _ & _ & _ & _ & Hhist).
  unfold processor_inv. cbn.
  repeat split; try apply clamp01_bounds; exact Hhist.
Qed.

Lemma fresh_processor_inv (tfr sf : Q) :
  processor_inv
    (FP.init (PC.mk tfr PC.default_min_zoom PC.default_max_zoom sf
                PC.default_max_shift_per_frame)).
Proof.
  unfold processor_inv. cbn. repeat split; apply clamp01_bounds.
Qed.

Lemma update_fps_frame (c : CC.t) (now : Q) :
  CC.config (CC.update_fps c now) = CC.config c
  /\ CC.tracking_state (CC.update_fps c now) = CC.tracking_state c
  /\ CC.frame_processor (CC.update_fps c now) = CC.frame_processor c
  /\ CC.running (CC.update_fps c now) = CC.running c
  /\ CC.frame_queue (CC.update_fps c now) = CC.frame_queue c
  /\ CC.current_zoom (CC.update_fps c now) = CC.current_zoom c
  /\ CC.error_message (CC.update_fps c now) = CC.error_message c
  /\ CC.frame_read_failures (CC.update_fps c now) = CC.frame_read_failures c.
Proof.
  unfold CC.update_fps.
  repeat match goal with
         | |- context [if ?b then _ else _] => destruct b
         end; repeat split.
Qed.

Lemma update_fps_counters (c : CC.t) (now : Q) :
  (CC.low_fps_warning_shown c = true <-> (5 <= CC.low_fps_counter c)%Z) ->
  (0 <= CC.fps_counter c)%Z ->
  (CC.low_fps_warning_shown (CC.update_fps c now) = true
   <-> (5 <= CC.low_fps_counter (CC.update_fps c now))%Z)
  /\ (0 <= CC.fps_counter (CC.update_fps c now))%Z.
Proof.
  intros Hiff Hcnt. unfold CC.update_fps.
  destruct (Qle_bool 1 (now - CC.fps_start_time c));
    [| cbn; split; [assumption | lia]].
  destruct (Qltb _ 15).
  - destruct (Z.leb_spec 5 (CC.low_fps_counter c + 1)) as [H5 | H5];
      destruct (CC.low_fps_warning_shown c) eqn:Es; cbn.
    + split; [split; [intros _; exact H5 | reflexivity] | lia].
    + split; [split; [intros _; exact H5 | reflexivity] | lia].
    + split; [| lia]. destruct Hiff as [Hiff _].
      pose proof (Hiff eq_refl). lia.
    + split; [split; [discriminate | lia] | lia].
  - cbn. split; [split; [discriminate | lia] | lia].
Qed.

Lemma update_fps_inv (c : CC.t) (now : Q) :
  controller_inv c -> controller_inv (CC.update_fps c now).
Proof.
  intros (Hq & Hf & Hfps & Hcnt & Hzoom & Hcomp & Hproc & Hmem).
  pose proof (update_fps_frame c now) as (_ & H2 & H3 & H4 & H5 & H6 & _ & H8).
  pose proof (update_fps_counters c now Hfps Hcnt) as [U1 U2].
  unfold controller_inv. rewrite H2, H3, H4, H5, H6, H8.
  split; [exact Hq | split; [exact Hf | split; [exact U1 | split; [exact U2 |]]]].
  split; [exact Hzoom | split; [exact Hcomp | split; [exact Hproc | exact Hmem]]].
Qed.

Lemma set_error_message_inv (c : CC.t) (m : option string) :
  controller_inv c -> controller_inv (CC.set_error_message c m).
Proof. intro H. exact H. Qed.

Section ControllerProperties.

Variable cv2_resize : Frame -> Z -> Z -> Outcome Frame.

Ltac inv_trivial :=
  repeat match goal with
         | H : processor_inv _ |- _ =>
             destruct H as (? & ? & ? & ? & [? ?] & ?)
         end;
  unfold controller_inv; cbn; repeat split; try assumption; try lia;
  try discriminate.

Lemma tick_inv (c : CC.t) (env : CC.TickEnv) :
  CC.running c = true ->
  controller_inv c -> controller_inv (CC.tick cv2_resize c env).
Proof.
  intros Hrun (Hq & Hf & [Hfps1 Hfps2] & Hcnt & Hzoom & Hcomp & Hproc & Hmem).
  destruct (Hcomp Hrun) as [Hts Hfp].
  unfold CC.tick.
  destruct c as [cfg ots ofp run q n st cur zm low shown err k].
  cbn [CC.tracking_state CC.frame_processor CC.set_frame_read_failures
       CC.set_tracking_state CC.set_frame_processor CC.config
       CC.running CC.frame_queue CC.fps_counter CC.fps_start_time
       CC.current_fps CC.current_zoom CC.low_fps_counter
       CC.low_fps_warning_shown CC.error_message CC.frame_read_failures] in *.
  destruct ots as [ts |]; [| exfalso; apply Hts; reflexivity].
  destruct ofp as [fp |]; [| exfalso; apply Hfp; reflexivity].
  clear Hcomp Hts Hfp.
  destruct (CC.read_frame env) as [[frame |] | e].
  - destruct (CC.detect env) as [detection | e]; [| inv_trivial].
    pose proof (process_processor_inv cv2_resize fp (Some frame)
                  (TrackingState.get_target_bbox
                     (snd (TrackingState.update ts detection
                             (CC.current_time env)))) Hproc) as Hproc'.
    assert (Hmem' : TrackingState.memory_duration
                      (snd (TrackingState.update ts detection
                              (CC.current_time env))) = 2).
    { rewrite <- Hmem. destruct detection; cbn; [reflexivity |].
      destruct (TrackingState.last_detection_time ts); reflexivity. }
    destruct (TrackingState.update ts detection (CC.current_time env))
      as [s ts'].
    cbn [snd] in *.
    destruct (FP.process cv2_resize fp (Some frame)
                (TrackingState.get_target_bbox ts')) as [out fp'].
    cbn [snd] in *.
    destruct out as [pf | e]; [| inv_trivial].
    destruct (CC.send_frame env) as [u | e]; [| inv_trivial].
    match goal with
    | |- controller_inv
           (if _ then CC.set_error_message (CC.update_fps ?X ?t) _ else _) =>
        assert (HX : controller_inv X)
    end.
    { destruct pf as [pf |]; [| inv_trivial].
      destruct (Nat.ltb_spec (length q) 2) as [Hlt | Hge]; [| inv_trivial].
      destruct Hproc' as (? & ? & ? & ? & [? ?] & ?).
      unfold controller_inv; cbn. rewrite length_app. cbn.
      repeat split; try assumption; try lia; try discriminate. }
    destruct (_ =? 0)%Z.
    + apply set_error_message_inv, update_fps_inv, HX.
    + apply update_fps_inv, HX.
  - destruct (3 <? k + 1)%Z; inv_trivial.
  - inv_trivial.
Qed.

Ltac inv_pieces :=
  unfold controller_inv; cbn;
  repeat split; try assumption; try lia; try discriminate; try congruence;
  try apply clamp01_bounds.

Lemma control_inv (c : CC.t) (call : ControllerCall) :
  controller_inv c -> controller_inv (control cv2_resize c call).
Proof.
  intro Hinv.
  pose proof Hinv as (Hq & Hf & [F1 F2] & Hcnt & Hzoom & Hcomp & Hproc & Hmem).
  destruct call as [env | env | cfg | |]; cbn [control].
  - (* start *)
    unfold CC.start.
    destruct (CC.running c) eqn:Hrun; [exact Hinv |].
    destruct (CC.camera_opened env) as [[|] | e];
      [| apply set_error_message_inv, Hinv ..].
    destruct (CC.detector_init env) as [u | e];
      [| apply set_error_message_inv, Hinv].
    destruct (CC.virtual_camera_init env) as [u' | e]; inv_pieces.
  - (* one iteration of the worker loop *)
    cbn [CC._process_loop].
    destruct (CC.running c) eqn:Hrun; [| exact Hinv].
    apply tick_inv; assumption.
  - (* update_settings *)
    unfold CC.update_settings.
    cbn [CC.frame_processor CC.set_config].
    destruct (CC.frame_processor c) as [fp |] eqn:Efp.
    + pose proof (controller_processor_inv fp
                    (AppConfig.face_size_ratio cfg)
                    (AppConfig.tracking_speed cfg) Hproc) as Hnew.
      unfold controller_inv.
      cbn [CC.set_frame_processor CC.set_config CC.frame_queue
           CC.frame_read_failures CC.low_fps_warning_shown CC.low_fps_counter CC.fps_counter
           CC.current_zoom CC.running CC.tracking_state CC.frame_processor
           CC.config CC.fps_start_time CC.current_fps CC.error_message].
      split; [exact Hq | split; [exact Hf | split; [split; assumption |]]].
      split; [exact Hcnt | split; [exact Hzoom | split]].
      * intro Hr. split; [apply Hcomp, Hr | discriminate].
      * split; [exact Hnew | exact Hmem].
    + unfold controller_inv.
      cbn [CC.set_config CC.frame_queue CC.frame_read_failures
           CC.low_fps_warning_shown CC.low_fps_counter CC.fps_counter
           CC.current_zoom CC.running CC.tracking_state CC.frame_processor
           CC.config CC.fps_start_time CC.current_fps CC.error_message].
      rewrite Efp.
      split; [exact Hq | split; [exact Hf | split; [split; assumption |]]].
      split; [exact Hcnt | split; [exact Hzoom | split]].
      * exact Hcomp.
      * split; [exact I | exact Hmem].
  - (* stop *)
    unfold CC.stop. destruct (CC.running c) eqn:Hrun; cbn [negb];
      [| exact Hinv].
    inv_pieces.
  - (* get_preview_frame *)
    unfold CC.get_preview_frame.
    destruct (CC.frame_queue c) as [| f rest] eqn:Eq; cbn [snd];
      [exact Hinv |].
    cbn in Hq. unfold controller_inv. cbn.
    split; [lia | split; [exact Hf | split; [split; assumption |]]].
    split; [exact Hcnt | split; [exact Hzoom | split]].
    + exact Hcomp.
    + split; [exact Hproc | exact Hmem].
Qed.

Lemma controls_inv (calls : list ControllerCall) :
  forall c : CC.t,
    controller_inv c -> controller_inv (controls cv2_resize c calls).
Proof.
  induction calls as [| call calls IH]; intros c H.
  - exact H.
  - apply (IH (control cv2_resize c call)), control_inv, H.
Qed.

Lemma init_inv (cfg : AppConfig.t) : controller_inv (CC.init cfg).
Proof.
  unfold controller_inv. cbn.
  repeat split; try lia; try discriminate.
Qed.

(** X15.  The preview queue never holds more than two frames, whatever the
    controller has been through: starts, loop iterations with any device
    answers, settings updates, stops and preview reads. *)
Theorem preview_queue_bounded (cfg : AppConfig.t) (calls : list ControllerCall) :
  (length (CC.frame_queue (controls cv2_resize (CC.init cfg) calls)) <= 2)%nat.
Proof.
  apply (controls_inv calls (CC.init cfg) (init_inv cfg)).
Qed.

(** X16.  Every processor the controller ever holds has the zoom bounds 1 and
    3 and the shift limit 50, whatever settings were loaded or updated, its
    zoom filter's factor lies within [0,1], and its stored smoothed zoom, if
    any, is positive: the zoom never reaches zero. *)
Theorem controller_zoom_within_bounds
    (cfg : AppConfig.t) (calls : list ControllerCall) :
  match CC.frame_processor (controls cv2_resize (CC.init cfg) calls) with
  | Some fp =>
      PC.min_zoom (FP.config fp) = 1
      /\ PC.max_zoom (FP.config fp) = 3
      /\ PC.max_shift_per_frame (FP.config fp) = 50%Z
      /\ TS.max_shift_per_frame (FP.smoother fp) = 50%Z
      /\ zoom_positive fp
  | None => True
  end.
Proof.
  pose proof (controls_inv calls (CC.init cfg) (init_inv cfg))
    as (_ & _ & _ & _ & _ & _ & Hproc & _).
  destruct (CC.frame_processor (controls cv2_resize (CC.init cfg) calls))
    as [fp |]; [| exact I].
  destruct Hproc as (Hmin & Hmax & Hshift & Hlimit & Ha & Hhist).
  repeat (split; [assumption |]).
  unfold zoom_positive. rewrite Hmin.
  split; [reflexivity | split; [exact Ha | exact Hhist]].
Qed.

(** X17.  In every state the controller can reach, the low-frame-rate
    warning flag is set exactly when the counter of consecutive low
    one-second windows is at least 5. *)
Theorem low_fps_flag_exact (cfg : AppConfig.t) (calls : list ControllerCall) :
  let c := controls cv2_resize (CC.init cfg) calls in
  CC.low_fps_warning_shown c = true <-> (5 <= CC.low_fps_counter c)%Z.
Proof.
  apply (controls_inv calls (CC.init cfg) (init_inv cfg)).
Qed.

(** X18.  [get_status] reports a zoom of 1.0 in every state the controller
    can reach: nothing ever writes [current_zoom], whatever zoom the
    processor applies.  It reports a detected face exactly when the reported
    tracking status is [TRACKING]. *)
Theorem status_zoom_never_updated
    (cfg : AppConfig.t) (calls : list ControllerCall) :
  let st := CC.get_status (controls cv2_resize (CC.init cfg) calls) in
  CC.ControllerStatus.current_zoom st = 1
  /\ (CC.ControllerStatus.face_detected st = true
      <-> CC.ControllerStatus.tracking_status st = TRACKING).
Proof.
  pose proof (controls_inv calls (CC.init cfg) (init_inv cfg))
    as (_ & _ & _ & _ & Hzoom & _).
  cbv zeta. unfold CC.get_status.
  destruct (CC.tracking_state (controls cv2_resize (CC.init cfg) calls))
    as [ts |]; cbn.
  - split; [exact Hzoom |].
    destruct (TrackingState.status ts); split; congruence.
  - split; [exact Hzoom | split; discriminate].
Qed.

(** X19.  In every state the controller can reach through whole calls and
    whole loop iterations, a running controller holds a tracker, with a
    memory duration of 2 seconds, and a processor. *)
Theorem running_has_components
    (cfg : AppConfig.t) (calls : list ControllerCall)
    (Hrun : CC.running (controls cv2_resize (CC.init cfg) calls) = true) :
  let c := controls cv2_resize (CC.init cfg) calls in
  (exists ts, CC.tracking_state c = Some ts
              /\ TrackingState.memory_duration ts = 2)
  /\ (exists fp, CC.frame_processor c = Some fp).
Proof.
  pose proof (controls_inv calls (CC.init cfg) (init_inv cfg))
    as (_ & _ & _ & _ & _ & Hcomp & _ & Hmem).
  destruct (Hcomp Hrun) as [Hts Hfp]. cbv zeta.
  destruct (CC.tracking_state (controls cv2_resize (CC.init cfg) calls))
    as [ts |]; [| exfalso; apply Hts; reflexivity].
  destruct (CC.frame_processor (controls cv2_resize (CC.init cfg) calls))
    as [fp |]; [| exfalso; apply Hfp; reflexivity].
  split; [exists ts; split; [reflexivity | exact Hmem] | exists fp; reflexivity].
Qed.

Lemma tick_error_message (c : CC.t) (env : CC.TickEnv) :
  CC.error_message (CC.tick cv2_resize c env) = CC.error_message c
  \/ exists m, CC.error_message (CC.tick cv2_resize c env) = Some m.
Proof.
  unfold CC.tick.
  destruct c as [cfg ots ofp run q n st cur zm low shown err k].
  cbn [CC.tracking_state CC.frame_processor CC.set_frame_read_failures
       CC.set_tracking_state CC.set_frame_processor CC.config
       CC.running CC.frame_queue CC.fps_counter CC.fps_start_time
       CC.current_fps CC.current_zoom CC.low_fps_counter
       CC.low_fps_warning_shown CC.error_message CC.frame_read_failures].
  destruct (CC.read_frame env) as [[frame |] | e];
    [| destruct (3 <? k + 1)%Z; cbn; eauto | cbn; eauto].
  destruct (CC.detect env) as [detection | e]; [| cbn; eauto].
  destruct ots as [ts |]; [| cbn; eauto].
  destruct (TrackingState.update ts detection (CC.current_time env))
    as [s ts'].
  destruct ofp as [fp |]; [| cbn; eauto].
  destruct (FP.process cv2_resize fp (Some frame)
              (TrackingState.get_target_bbox ts')) as [out fp'].
  destruct out as [pf | e]; [| cbn; eauto].
  destruct (CC.send_frame env) as [u | e]; [| cbn; eauto].
  match goal with
  | |- context [CC.update_fps ?X ?t] =>
      pose proof (update_fps_frame X t) as (_ & _ & _ & _ & _ & _ & H7 & _);
      assert (HX : CC.error_message X = err)
        by (destruct pf; [destruct (_ <? _)%nat |]; reflexivity)
  end.
  destruct (_ =? 0)%Z; [cbn; eauto |].
  left. rewrite H7, HX. reflexivity.
Qed.

(** X20.  The loop never clears an error: once [error_message] holds a
    message it holds one after every further iteration, successful ones
    included, and after the whole loop. *)
Theorem error_message_never_cleared
    (c : CC.t) (envs : list CC.TickEnv)
    (Herr : CC.error_message c <> None) :
  CC.error_message (CC._process_loop cv2_resize c envs) <> None.
Proof.
  revert c Herr. induction envs as [| env envs IH]; intros c Herr.
  - exact Herr.
  - cbn [CC._process_loop]. destruct (CC.running c); [| exact Herr].
    apply IH.
    destruct (tick_error_message c env) as [Heq | [m Hm]].
    + rewrite Heq. exact Herr.
    + rewrite Hm. discriminate.
Qed.

End ControllerProperties.

Lemma error_message_never_cleared_witness :
  let c :=
    CC.set_error_message
      (snd (CC.start (CC.init AppConfig.default)
              (CC.mkStartEnv (Returned true) (Returned tt) (Returned tt) 0)))
      (Some "earlier failure") in
  let px : Pixel := (Byte.x00, Byte.x00, Byte.x00) in
  let good :=
    CC.mkTickEnv (Returned (Some [[px]])) (Returned None) 1 (Returned tt) in
  CC.error_message (CC._process_loop (fun roi _ _ => Returned roi) c [good; good])
  <> None.
Proof.
  intros c px good.
  apply error_message_never_cleared. discriminate.
Defined.

Lemma running_has_components_witness :
  let c :=
    controls (fun roi _ _ => Returned roi) (CC.init AppConfig.default)
      [CallStart (CC.mkStartEnv (Returned true) (Returned tt) (Returned tt) 0);
       CallUpdateSettings AppConfig.default] in
  exists fp, CC.frame_processor c = Some fp.
Proof.
  intro c.
  refine (proj2 (running_has_components (fun roi _ _ => Returned roi)
                   AppConfig.default
                   [CallStart (CC.mkStartEnv (Returned true) (Returned tt)
                                 (Returned tt) 0);
                    CallUpdateSettings AppConfig.default] _)).
  reflexivity.
Defined.

Section LoopFurther.

Variable cv2_resize : Frame -> Z -> Z -> Outcome Frame.

Lemma tick_raised_read (c : CC.t) (env : CC.TickEnv) (e : string) :
  CC.read_frame env = Raised e ->
  CC.tick cv2_resize c env = CC.set_error_message c (Some e).
Proof.
  intro H. unfold CC.tick. rewrite H. reflexivity.
Qed.

(** X21.  The loop stops itself for one reason only.  If an iteration of a
    running loop leaves [running] false, then the camera returned no frame
    on it, the failure counter stood at 3 or more before it, and the error
    message is [Camera connection lost]; no exception of the camera, the
    detector, the processor or the virtual camera stops the loop. *)
Theorem loop_stops_only_on_connection_loss
    (c : CC.t) (env : CC.TickEnv)
    (Hrun : CC.running c = true)
    (Hstop : CC.running (CC.tick cv2_resize c env) = false) :
  failed_read env
  /\ (3 <= CC.frame_read_failures c)%Z
  /\ CC.error_message (CC.tick cv2_resize c env)
     = Some "Camera connection lost".
Proof.
  destruct (CC.read_frame env) as [[frame |] | e] eqn:Hread.
  - destruct (tick_good_read cv2_resize c env frame Hread) as [_ Hsame].
    rewrite Hsame, Hrun in Hstop. discriminate Hstop.
  - assert (Hfail : failed_read env) by exact Hread.
    rewrite (tick_failed_read cv2_resize c env Hfail) in Hstop |- *.
    cbv zeta in Hstop |- *.
    destruct (Z.ltb_spec 3 (CC.frame_read_failures c + 1)) as [Hgt | Hle].
    + split; [exact Hfail | split; [lia | reflexivity]].
    + cbn in Hstop. rewrite Hrun in Hstop. discriminate Hstop.
  - rewrite (tick_raised_read c env e Hread) in Hstop.
    cbn in Hstop. rewrite Hrun in Hstop. discriminate Hstop.
Qed.

(** X22.  A successful read gives the full tolerance back, whatever the
    counter was: a running loop that reads one frame and then fails up to
    three times in a row is still running, with the counter at the number
    of those failures. *)
Theorem good_read_restores_tolerance
    (c : CC.t) (good : CC.TickEnv) (f : Frame) (fails : list CC.TickEnv)
    (Hrun : CC.running c = true)
    (Hgood : CC.read_frame good = Returned (Some f))
    (Hfails : Forall failed_read fails)
    (Hlen : (length fails <= 3)%nat) :
  let c' := CC._process_loop cv2_resize c (good :: fails) in
  CC.running c' = true
  /\ CC.frame_read_failures c' = Z.of_nat (length fails).
Proof.
  cbv zeta. cbn [CC._process_loop]. rewrite Hrun.
  destruct (tick_good_read cv2_resize c good f Hgood) as [Hzero Hsame].
  rewrite Hrun in Hsame.
  rewrite (loop_tolerated cv2_resize fails _ Hsame Hfails)
    by (rewrite Hzero; lia).
  rewrite Hzero. cbn. split; [exact Hsame | reflexivity].
Qed.

Lemma loop_four_failed_reads (c : CC.t) (fails : list CC.TickEnv) :
  CC.running c = true ->
  CC.frame_read_failures c = 0%Z ->
  Forall failed_read fails ->
  length fails = 4%nat ->
  CC._process_loop cv2_resize c fails
  = CC.set_running
      (CC.set_error_message (CC.set_frame_read_failures c 4)
         (Some "Camera connection lost")) false.
Proof.
  intros Hrun Hzero Hfails Hlen.
  destruct fails as [| e1 [| e2 [| e3 [| e4 [| e5 rest]]]]];
    try discriminate Hlen.
  assert (H3 : Forall failed_read [e1; e2; e3]).
  { inversion Hfails as [| ? ? ? H1]; subst.
    inversion H1 as [| ? ? ? H2]; subst.
    inversion H2 as [| ? ? ? H3]; subst.
    repeat constructor; assumption. }
  assert (H4 : failed_read e4).
  { inversion Hfails as [| ? ? ? H1]; subst.
    inversion H1 as [| ? ? ? H2]; subst.
    inversion H2 as [| ? ? ? H5]; subst.
    inversion H5; assumption. }
  change [e1; e2; e3; e4] with ([e1; e2; e3] ++ [e4])%list.
  rewrite loop_app.
  rewrite (loop_tolerated cv2_resize [e1; e2; e3] c Hrun H3)
    by (rewrite Hzero; cbn; lia).
  rewrite Hzero. cbn [CC._process_loop].
  cbn [CC.running CC.set_frame_read_failures]. rewrite Hrun.
  rewrite (tick_failed_read cv2_resize _ e4 H4). reflexivity.
Qed.

(** X23.  After the loop has stopped itself on a lost connection, [stop()]
    does nothing at all (it returns at its first test, so tracker and
    processor stay in place), and a later successful [start()] does not
    reset the failure counter: the restarted loop begins with the counter
    at 4 and stops again on its first failed read. *)
Theorem restart_keeps_failure_count
    (c0 : CC.t) (fails : list CC.TickEnv) (env : CC.StartEnv)
    (fail : CC.TickEnv)
    (Hrun : CC.running c0 = true)
    (Hzero : CC.frame_read_failures c0 = 0%Z)
    (Hfails : Forall failed_read fails)
    (Hlen : length fails = 4%nat)
    (Hfail : failed_read fail) :
  let c := CC._process_loop cv2_resize c0 fails in
  let c1 := snd (CC.start (CC.stop c) env) in
  CC.stop c = c
  /\ (fst (CC.start (CC.stop c) env) = true ->
      CC.running c1 = true
      /\ CC.frame_read_failures c1 = 4%Z
      /\ CC.running (CC._process_loop cv2_resize c1 [fail]) = false
      /\ CC.error_message (CC._process_loop cv2_resize c1 [fail])
         = Some "Camera connection lost").
Proof.
  cbv zeta.
  rewrite (loop_four_failed_reads c0 fails Hrun Hzero Hfails Hlen).
  set (c := CC.set_running _ false).
  assert (Hstop : CC.stop c = c) by reflexivity.
  split; [exact Hstop |]. rewrite Hstop.
  unfold CC.start. cbn [CC.running c CC.set_running].
  destruct (CC.camera_opened env) as [[|] | e]; try discriminate.
  destruct (CC.detector_init env) as [u | e]; try discriminate.
  destruct (CC.virtual_camera_init env) as [u' | e]; try discriminate.
  intros _. cbn [snd].
  split; [reflexivity | split; [reflexivity |]].
  cbn [CC._process_loop]. cbn [CC.running CC.set_fps CC.set_running].
  rewrite (tick_failed_read cv2_resize _ fail Hfail).
  split; reflexivity.
Qed.

End LoopFurther.

Lemma loop_stops_only_on_connection_loss_witness :
  let c :=
    CC.set_frame_read_failures
      (snd (CC.start (CC.init AppConfig.default)
              (CC.mkStartEnv (Returned true) (Returned tt) (Returned tt) 0)))
      3 in
  let lost := CC.mkTickEnv (Returned None) (Returned None) 0 (Returned tt) in
  CC.error_message (CC.tick (fun roi _ _ => Returned roi) c lost)
  = Some "Camera connection lost".
Proof.
  intros c lost.
  refine (proj2 (proj2 (loop_stops_only_on_connection_loss
                          (fun roi _ _ => Returned roi) c lost _ _)));
    reflexivity.
Defined.

Lemma good_read_restores_tolerance_witness :
  let c :=
    CC.set_frame_read_failures
      (snd (CC.start (CC.init AppConfig.default)
              (CC.mkStartEnv (Returned true) (Returned tt) (Returned tt) 0)))
      3 in
  let px : Pixel := (Byte.x00, Byte.x00, Byte.x00) in
  let good :=
    CC.mkTickEnv (Returned (Some [[px]])) (Returned None) 1 (Returned tt) in
  let lost := CC.mkTickEnv (Returned None) (Returned None) 0 (Returned tt) in
  CC.running
    (CC._process_loop (fun roi _ _ => Returned roi) c [good; lost; lost; lost])
  = true.
Proof.
  intros c px good lost.
  refine (proj1 (good_read_restores_tolerance (fun roi _ _ => Returned roi)
                   c good [[px]] [lost; lost; lost] _ _ _ _)).
  - reflexivity.
  - reflexivity.
  - repeat constructor.
  - cbn. lia.
Defined.

Lemma restart_keeps_failure_count_witness :
  let resize := fun (roi : Frame) (_ _ : Z) => Returned roi in
  let ok := CC.mkStartEnv (Returned true) (Returned tt) (Returned tt) 0 in
  let c0 := snd (CC.start (CC.init AppConfig.default) ok) in
  let lost := CC.mkTickEnv (Returned None) (Returned None) 0 (Returned tt) in
  let c := CC._process_loop resize c0 [lost; lost; lost; lost] in
  CC.stop c = c
  /\ CC.running
       (CC._process_loop resize (snd (CC.start (CC.stop c) ok)) [lost])
     = false.
Proof.
  intros resize ok c0 lost c.
  assert (H4 : Forall failed_read [lost; lost; lost; lost])
    by (repeat constructor).
  destruct (restart_keeps_failure_count resize c0 [lost; lost; lost; lost]
              ok lost eq_refl eq_refl H4 eq_refl eq_refl) as [Hs Hr].
  split; [exact Hs |].
  destruct Hr as (_ & _ & Hstop & _); [reflexivity | exact Hstop].
Defined.

(** ** face_detector.py *)

Module FD := FaceDetector.

Lemma scan_cons (d : FD.Detection) (rest : list FD.Detection)
    (width height : Z) (ld : option FaceDetection) (la : Z) :
  FD.scan (d :: rest) width height ld la
  = if (la <? box_area (pixel_box width height d))%Z
    then FD.scan rest width height (Some (candidate width height d))
           (box_area (pixel_box width height d))
    else FD.scan rest width height ld la.
Proof. reflexivity. Qed.

Lemma scan_result (width height : Z) (ds : list FD.Detection) :
  forall (ld : option FaceDetection) (la : Z),
    (FD.scan ds width height ld la = ld
     /\ Forall (fun d => (box_area (pixel_box width height d) <= la)%Z) ds)
    \/ (exists pre d post,
           ds = (pre ++ d :: post)%list
           /\ FD.scan ds width height ld la = Some (candidate width height d)
           /\ (la < box_area (pixel_box width height d))%Z
           /\ Forall (fun d' => (box_area (pixel_box width height d')
                                 < box_area (pixel_box width height d))%Z) pre
           /\ Forall (fun d' => (box_area (pixel_box width height d')
                                 <= box_area (pixel_box width height d))%Z)
                post).
Proof.
  induction ds as [| d0 rest IH]; intros ld la.
  - left. split; [reflexivity | constructor].
  - rewrite scan_cons.
    set (a0 := box_area (pixel_box width height d0)).
    destruct (Z.ltb_spec la a0) as [Hlt | Hge].
    + right.
      destruct (IH (Some (candidate width height d0)) a0)
        as [[Hres Hall] | (pre & d & post & Hds & Hres & Hgt & Hpre & Hpost)].
      * exists [], d0, rest. fold a0.
        split; [reflexivity | split; [exact Hres | split; [exact Hlt |]]].
        split; [constructor | exact Hall].
      * exists (d0 :: pre), d, post.
        split; [rewrite Hds; reflexivity | split; [exact Hres |]].
        split; [lia | split; [| exact Hpost]].
        constructor; [fold a0; exact Hgt | exact Hpre].
    + destruct (IH ld la)
        as [[Hres Hall] | (pre & d & post & Hds & Hres & Hgt & Hpre & Hpost)].
      * left. split; [exact Hres |]. constructor; [fold a0; exact Hge | exact Hall].
      * right. exists (d0 :: pre), d, post.
        split; [rewrite Hds; reflexivity | split; [exact Hres |]].
        split; [exact Hgt | split; [| exact Hpost]].
        constructor; [fold a0; lia | exact Hpre].
Qed.

Lemma detect_scans (f : Frame) (ds : list FD.Detection) :
  size f <> 0%Z ->
  FD.detect (Some f) (Some ds)
  = FD.scan ds (snd (shape f)) (fst (shape f)) None 0.
Proof.
  intro Hsz. unfold FD.detect.
  destruct (Z.eqb_spec (size f) 0) as [Hc | _]; [contradiction |].
  destruct ds as [| d rest]; [reflexivity |].
  destruct (shape f) as [height width]. reflexivity.
Qed.

(** X24.  When [detect] returns a face, the frame is not empty and the face
    is built from one of MediaPipe's detections: the one whose pixel box has
    the largest area, the first of them when several share that area.  The
    area is positive, and the box starts inside the frame and does not reach
    past its right or bottom edge. *)
Theorem detect_returns_first_largest
    (f : Frame) (ds : list FD.Detection) (face : FaceDetection)
    (Hdet : FD.detect (Some f) (Some ds) = Some face) :
  let width := snd (shape f) in
  let height := fst (shape f) in
  size f <> 0%Z
  /\ exists pre d post,
       ds = (pre ++ d :: post)%list
       /\ face = candidate width height d
       /\ (0 < box_area (bbox face))%Z
       /\ Forall (fun d' => (box_area (pixel_box width height d')
                             < box_area (bbox face))%Z) pre
       /\ Forall (fun d' => (box_area (pixel_box width height d')
                             <= box_area (bbox face))%Z) post
       /\ (let '(x, y, w, h) := bbox face in
           (0 <= x /\ 0 <= y /\ x + w <= width /\ y + h <= height)%Z
           /\ center face = ((x + w / 2)%Z, (y + h / 2)%Z)).
Proof.
  intros width height.
  assert (Hsz : size f <> 0%Z).
  { intro Hc. unfold FD.detect in Hdet. rewrite Hc in Hdet.
    discriminate Hdet. }
  split; [exact Hsz |].
  rewrite (detect_scans f ds Hsz) in Hdet. fold width height in Hdet.
  destruct (scan_result width height ds None 0)
    as [[Hres _] | (pre & d & post & Hds & Hres & Hgt & Hpre & Hpost)].
  - rewrite Hres in Hdet. discriminate Hdet.
  - rewrite Hres in Hdet. injection Hdet as <-.
    exists pre, d, post.
    assert (Hb : bbox (candidate width height d) = pixel_box width height d).
    { unfold candidate. destruct (pixel_box width height d) as [[[x y] w] h].
      reflexivity. }
    rewrite Hb.
    split; [exact Hds | split; [reflexivity | split; [exact Hgt |]]].
    split; [exact Hpre | split; [exact Hpost |]].
    unfold candidate, pixel_box. cbn. split; [lia | reflexivity].
Qed.

Lemma detect_returns_first_largest_witness :
  let px : Pixel := (Byte.x00, Byte.x00, Byte.x00) in
  let f : Frame := [[px; px; px; px]; [px; px; px; px]] in
  let small := FD.mkDetection (RelativeBoundingBox.mk 0 0 (1 # 4) (1 # 2)) 1 in
  let large := FD.mkDetection (RelativeBoundingBox.mk 0 0 (1 # 2) 1) (1 # 2) in
  exists face,
    FD.detect (Some f) (Some [small; large; large]) = Some face
    /\ (0 < box_area (bbox face))%Z.
Proof.
  intros px f small large.
  eexists. split; [reflexivity |].
  destruct (detect_returns_first_largest f [small; large; large] _ eq_refl)
    as (_ & pre & d & post & _ & _ & Hpos & _).
  exact Hpos.
Defined.

(** X25.  [detect] finds no face exactly when there is nothing to select:
    it returns [None] for a missing or empty frame whatever MediaPipe
    answers, and for a frame that is not empty it returns [None] if and only
    if no detection has a pixel box of positive area (in particular when
    there are no detections at all). *)
Theorem detect_none_iff_no_positive_area
    (f : Frame) (detections : option (list FD.Detection)) :
  FD.detect None detections = None
  /\ (size f = 0%Z -> FD.detect (Some f) detections = None)
  /\ (size f <> 0%Z ->
      (FD.detect (Some f) detections = None
       <-> Forall (fun d => (box_area (pixel_box (snd (shape f))
                                         (fst (shape f)) d) <= 0)%Z)
             (match detections with Some ds => ds | None => [] end))).
Proof.
  split; [reflexivity | split].
  - intro Hsz. unfold FD.detect. rewrite Hsz. reflexivity.
  - intro Hsz. destruct detections as [ds |].
    + rewrite (detect_scans f ds Hsz).
      destruct (scan_result (snd (shape f)) (fst (shape f)) ds None 0)
        as [[Hres Hall] | (pre & d & post & Hds & Hres & Hgt & _)].
      * rewrite Hres. split; [intros _; exact Hall | reflexivity].
      * rewrite Hres. split; [discriminate |].
        intro Hall. exfalso. rewrite Hds in Hall.
        apply Forall_app in Hall. destruct Hall as [_ Hall].
        inversion Hall; subst. lia.
    + unfold FD.detect. destruct (size f =? 0)%Z;
        split; try reflexivity; intros _; constructor.
Qed.

Lemma detect_none_iff_no_positive_area_witness :
  let px : Pixel := (Byte.x00, Byte.x00, Byte.x00) in
  let f : Frame := [[px; px]; [px; px]] in
  let flat := FD.mkDetection (RelativeBoundingBox.mk 0 0 1 0) 1 in
  FD.detect (Some f) (Some [flat]) = None.
Proof.
  intros px f flat.
  destruct (detect_none_iff_no_positive_area f (Some [flat]))
    as (_ & _ & H).
  apply H; [discriminate |].
  repeat constructor. discriminate.
Defined.

(** ** video_recorder.py *)

Module VR := VideoRecorder.

Lemma record_inv (r : VR.t) (c : RecorderCall) :
  recorder_inv r -> recorder_inv (record r c).
Proof.
  intros [Hcnt Hst]. unfold recorder_inv.
  destruct c as [w h env | f o | o | o]; cbn [record].
  - unfold VR.start_recording.
    destruct (VR.is_recording r) eqn:Erec; cbn [snd].
    + rewrite ?Erec. split; assumption.
    + destruct (VR.writer_opened env) as [[|] | e]; cbn.
      * split; [lia |]. split; [exists []; split; reflexivity | discriminate].
      * rewrite ?Erec. split; [exact Hcnt | split; reflexivity].
      * rewrite ?Erec. split; [exact Hcnt | split; reflexivity].
  - unfold VR.write_frame.
    destruct (VR.is_recording r) eqn:Erec; cbn [negb snd].
    + destruct Hst as [(frames & Hw & Hn) Hfile]. rewrite Hw.
      destruct o as [u | e]; cbn.
      * rewrite ?Erec. split; [lia |]. split; [| exact Hfile].
        exists (frames ++ [f])%list. split; [reflexivity |].
        rewrite length_app. cbn. lia.
      * rewrite ?Erec. split; [exact Hcnt |]. split; [| exact Hfile].
        exists frames. split; assumption.
    + rewrite ?Erec. split; assumption.
  - unfold VR.stop_recording.
    destruct (VR.is_recording r) eqn:Erec; cbn [negb snd].
    + destruct (VR.writer r) as [frames |]; [destruct o as [u | e] |]; cbn;
        (split; [lia | split; reflexivity]).
    + rewrite ?Erec. split; assumption.
  - unfold VR.close, VR.stop_recording.
    destruct (VR.is_recording r) eqn:Erec; cbn [negb snd].
    + destruct (VR.writer r) as [frames |]; [destruct o as [u | e] |]; cbn;
        (split; [lia | split; reflexivity]).
    + rewrite ?Erec. split; assumption.
Qed.

Lemma records_inv (cs : list RecorderCall) :
  forall r : VR.t, recorder_inv r -> recorder_inv (records r cs).
Proof.
  induction cs as [| c cs IH]; intros r H.
  - exact H.
  - apply (IH (record r c)), record_inv, H.
Qed.

(** X26.  After any sequence of [start_recording], [write_frame],
    [stop_recording] and [close] calls, with any answers from OpenCV: the
    recorder is recording exactly when it holds a writer, and exactly when
    it holds a current file; while it records, [frame_count] is the number
    of frames written to that writer; and [frame_count] is never
    negative. *)
Theorem recorder_state_consistent
    (dir cdc : string) (fps : Z) (cs : list RecorderCall) :
  let r := records (VR.init dir cdc fps) cs in
  (VR.is_recording r = true <-> VR.writer r <> None)
  /\ (VR.is_recording r = true <-> VR.current_file r <> None)
  /\ (forall frames,
        VR.writer r = Some frames ->
        VR.frame_count r = Z.of_nat (length frames))
  /\ (0 <= VR.frame_count r)%Z.
Proof.
  intro r.
  assert (Hinv : recorder_inv r).
  { apply records_inv. split; [cbn; lia | split; reflexivity]. }
  destruct Hinv as [Hcnt Hst].
  destruct (VR.is_recording r).
  - destruct Hst as [(frames & Hw & Hn) Hfile]. rewrite Hw.
    split; [split; [discriminate | reflexivity] |].
    split; [split; [intros _; exact Hfile | reflexivity] |].
    split; [| exact Hcnt].
    intros frames' Heq. injection Heq as <-. exact Hn.
  - destruct Hst as [Hw Hfile]. rewrite Hw, Hfile.
    split; [split; [discriminate | intro H; exfalso; apply H; reflexivity] |].
    split; [split; [discriminate | intro H; exfalso; apply H; reflexivity] |].
    split; [discriminate | exact Hcnt].
Qed.

Lemma write_all_recording (fs : list Frame) :
  forall (r : VR.t) (frames : list Frame),
    VR.is_recording r = true ->
    VR.writer r = Some frames ->
    write_all r fs
    = VR.mk (VR.output_dir r) (VR.codec r) (VR.fps r)
        (Some (frames ++ fs)%list) (VR.current_file r) true
        (VR.frame_count r + Z.of_nat (length fs)).
Proof.
  induction fs as [| f fs IH]; intros r frames Hrec Hw.
  - cbn. rewrite app_nil_r, Z.add_0_r, <- Hrec, <- Hw.
    destruct r; reflexivity.
  - cbn [write_all fold_left]. fold (write_all (snd (VR.write_frame r f (Returned tt))) fs).
    unfold VR.write_frame at 1. rewrite Hrec, Hw. cbn [negb snd].
    rewrite (IH _ (frames ++ [f])%list) by reflexivity.
    cbn [VR.output_dir VR.codec VR.fps VR.current_file VR.frame_count].
    rewrite <- app_assoc. cbn [app length].
    f_equal. lia.
Qed.

(** X27.  A whole recording session.  From a recorder that is not recording,
    a start whose writer opens, the frames [fs] written one by one and a
    stop whose release succeeds: before the stop the writer has received
    exactly [fs], in order, and [frame_count] is their number; the stop
    returns the file [output_dir / recording_<timestamp>.mp4]; afterwards
    the recorder is idle again with a count of zero, and a second stop
    returns nothing. *)
Theorem recording_session
    (r : VR.t) (width height : Z) (stamp : string) (fs : list Frame)
    (Hidle : VR.is_recording r = false) :
  let started :=
    VR.start_recording r width height (VR.mkStartEnv stamp (Returned true)) in
  let filled := write_all (snd started) fs in
  let stopped := VR.stop_recording filled (Returned tt) in
  fst started = true
  /\ VR.writer filled = Some fs
  /\ VR.frame_count filled = Z.of_nat (length fs)
  /\ fst stopped = Some (VR.output_dir r, "recording_" ++ stamp ++ ".mp4")
  /\ snd stopped
     = VR.mk (VR.output_dir r) (VR.codec r) (VR.fps r) None None false 0
  /\ VR.stop_recording (snd stopped) (Returned tt) = (None, snd stopped).
Proof.
  cbv zeta. unfold VR.start_recording. rewrite Hidle. cbn [fst snd VR.writer_opened].
  rewrite (write_all_recording fs _ []) by reflexivity.
  cbn. repeat split.
Qed.

Lemma recording_session_witness :
  let px : Pixel := (Byte.x00, Byte.x00, Byte.x00) in
  let r := VR.init "out" "mp4v" 30 in
  let started :=
    VR.start_recording r 1 1 (VR.mkStartEnv "2024-01-01_00-00-00" (Returned true)) in
  fst (VR.stop_recording (write_all (snd started) [[[px]]; [[px]]]) (Returned tt))
  = Some ("out", "recording_2024-01-01_00-00-00.mp4").
Proof.
  intros px r started.
  destruct (recording_session r 1 1 "2024-01-01_00-00-00" [[[px]]; [[px]]]
              eq_refl) as (_ & _ & _ & H & _).
  exact H.
Defined.

(** X28.  A release that raises loses the file name but not the count: when
    [stop_recording] is called on a recording recorder and [writer.release]
    raises, the call returns [None], the recorder stops recording and drops
    writer and file, yet [frame_count] keeps its value, so
    [get_recording_info] goes on reporting those frames (and their
    duration) for a recorder that is not recording, until the next
    successful start sets the count to zero. *)
Theorem failed_release_keeps_count
    (r : VR.t) (frames : list Frame) (e stamp : string) (width height : Z)
    (Hrec : VR.is_recording r = true)
    (Hw : VR.writer r = Some frames) :
  let r' := snd (VR.stop_recording r (Raised e)) in
  fst (VR.stop_recording r (Raised e)) = None
  /\ VR.is_recording r' = false
  /\ VR.writer r' = None
  /\ VR.current_file r' = None
  /\ VR.info_frame_count (VR.get_recording_info r') = VR.frame_count r
  /\ VR.info_is_recording (VR.get_recording_info r') = false
  /\ VR.frame_count
       (snd (VR.start_recording r' width height
               (VR.mkStartEnv stamp (Returned true)))) = 0%Z.
Proof.
  cbv zeta. unfold VR.stop_recording. rewrite Hrec, Hw. cbn.
  repeat split.
Qed.

Lemma failed_release_keeps_count_witness :
  let px : Pixel := (Byte.x00, Byte.x00, Byte.x00) in
  let r :=
    write_all
      (snd (VR.start_recording (VR.init "out" "mp4v" 30) 1 1
              (VR.mkStartEnv "t" (Returned true))))
      [[[px]]; [[px]]; [[px]]] in
  VR.info_frame_count
    (VR.get_recording_info (snd (VR.stop_recording r (Raised "disk full"))))
  = 3%Z.
Proof.
  intros px r.
  destruct (failed_release_keeps_count r [[[px]]; [[px]]; [[px]]]
              "disk full" "t" 1 1 eq_refl eq_refl)
    as (_ & _ & _ & _ & H & _).
  rewrite H. reflexivity.
Defined.

(** X29.  [get_recording_info] never divides by zero and never reports a
    negative duration: after any history the duration is [frame_count / fps]
    when [fps] is positive, which is then not negative, and 0 for any other
    [fps]. *)
Theorem recording_info_duration
    (dir cdc : string) (fps : Z) (cs : list RecorderCall) :
  let r := records (VR.init dir cdc fps) cs in
  let info := VR.get_recording_info r in
  0 <= VR.info_duration_seconds info
  /\ ((0 < VR.fps r)%Z ->
      VR.info_duration_seconds info * inject_Z (VR.fps r)
      == inject_Z (VR.info_frame_count info))
  /\ ((VR.fps r <= 0)%Z -> VR.info_duration_seconds info = 0).
Proof.
  intros r info.
  assert (Hinv : recorder_inv r).
  { apply records_inv. split; [cbn; lia | split; reflexivity]. }
  destruct Hinv as [Hcnt _].
  unfold info, VR.get_recording_info. cbn.
  destruct (Z.ltb_spec 0 (VR.fps r)) as [Hpos | Hneg].
  - pose proof (inject_Z_pos _ Hpos) as Hq.
    assert (Hn : 0 <= inject_Z (VR.frame_count r))
      by (change 0 with (inject_Z 0); rewrite <- Zle_Qle; exact Hcnt).
    split; [| split; [intros _; field; lra | lia]].
    apply Qle_shift_div_l; [exact Hq | lra].
  - split; [discriminate | split; [lia | reflexivity]].
Qed.

(** ** config/settings.py *)

(** X30.  [get_face_ratio_for_zoom] answers 0.5, 0.4 and 0.3 for [close],
    [medium] and [wide], and 0.4 for every other string; so whatever name it
    is given, the ratio it returns lies between 0.3 and 0.5. *)
Theorem face_ratio_for_zoom_range (zoom_level : string) :
  let r := SettingsManager.get_face_ratio_for_zoom zoom_level in
  (zoom_level = "close" -> r = 5 # 10)
  /\ (zoom_level = "medium" -> r = 4 # 10)
  /\ (zoom_level = "wide" -> r = 3 # 10)
  /\ (zoom_level <> "close" -> zoom_level <> "medium" ->
      zoom_level <> "wide" -> r = 4 # 10)
  /\ 3 # 10 <= r <= 5 # 10.
Proof.
  cbv zeta.
  unfold SettingsManager.get_face_ratio_for_zoom, SettingsManager.ZOOM_PRESETS.
  cbn [SettingsManager.dict_get].
  destruct (String.eqb_spec "close" zoom_level) as [<- | Hc].
  { repeat split; try discriminate; try reflexivity.
    intro H. exfalso. apply H. reflexivity. }
  destruct (String.eqb_spec "medium" zoom_level) as [<- | Hm].
  { repeat split; try discriminate; try reflexivity. }
  destruct (String.eqb_spec "wide" zoom_level) as [<- | Hw].
  { repeat split; try discriminate; try reflexivity.
    intros _ _ H. exfalso. apply H. reflexivity. }
  repeat split; try discriminate; try reflexivity;
    intro H; exfalso; congruence.
Qed.

